(** * KubeOne prerequisite tasks (pkg/tasks/prerequisites.go)

    A shallow embedding of the prerequisite pipeline: the Go functions of
    [prerequisites.go] become state-passing functions over a [State] that
    carries the cluster specification, the configuration bundle and the
    record of everything the tasks did to the outside world (log lines,
    remote commands, sleeps, closed connections).  The packages the file
    imports but which are not part of it ([scripts], [runner], [state],
    [configupload], [admissionconfig], [encryptionproviders], [templates])
    are gathered in a [World] record the development is parametric in. *)

From Stdlib Require Import String ZArith List Bool Lia.
From stdpp Require Import gmap strings list.

Local Open Scope string_scope.
Local Open Scope Z_scope.

(** ** Errors *)

(** Go's [error] values.  [None : option error] is [nil]. *)
#[warnings="-register-all"]
Inductive error : Type :=
| ErrNew (msg : string)
| ErrWrap (cause : error) (msg : string)
| ErrWithStack (cause : error)
| ErrHost (host : Z) (cause : error)
| ErrHosts (failed : list error).

(** A Go result pair [(value, error)]. *)
Inductive result (A : Type) : Type :=
| Ok (a : A)
| Err (e : error).
Arguments Ok {A} a.
Arguments Err {A} e.

Module errors.
(** [errors.Wrap(err, msg)]: nil stays nil. *)
Definition Wrap (err : option error) (msg : string) : option error :=
  match err with
  | None => None
  | Some e => Some (ErrWrap e msg)
  end.

(** [errors.WithStack(err)]: nil stays nil. *)
Definition WithStack (err : option error) : option error :=
  match err with
  | None => None
  | Some e => Some (ErrWithStack e)
  end.
End errors.

(** ** The cluster specification (package kubeoneapi) *)

Module kubeoneapi.

(** Modelled from the spec: the operating-system enumeration of a host
    (section 3, Host); the type declaration is not in this file, its six
    named values are the keys of the table in [installKubeadm]. *)
Inductive OperatingSystemName : Type :=
| OperatingSystemNameAmazon
| OperatingSystemNameCentOS
| OperatingSystemNameDebian
| OperatingSystemNameFlatcar
| OperatingSystemNameRHEL
| OperatingSystemNameUbuntu
| OperatingSystemNameUnknown.

Record HostConfig : Type := {
  ID : Z;
  OperatingSystem : OperatingSystemName
}.

Record ProxyConfig : Type := {
  HTTP : string;
  HTTPS : string;
  NoProxy : string
}.

Module StaticAuditLog.
Record Config : Type := { PolicyFilePath : string }.
Record t : Type := { Enable : bool; Config_ : Config }.
End StaticAuditLog.

Module PodNodeSelector.
Record Config : Type := { ConfigFilePath : string }.
Record t : Type := { Enable : bool; Config_ : Config }.
End PodNodeSelector.

(** [generateConfigurationFiles] reads
    [EncryptionProviders.CustomEncryptionConfiguration] only behind the
    guard [ShouldEnableEncryption() || EncryptionEnabled()], with no nil
    test of its own; it is a plain record here. *)
Record EncryptionProviders : Type := {
  CustomEncryptionConfiguration : string
}.

(** [StaticAuditLog] and [PodNodeSelector] are pointers the code
    compares with nil. *)
Record Features : Type := {
  StaticAuditLog_ : option StaticAuditLog.t;
  PodNodeSelector_ : option PodNodeSelector.t;
  EncryptionProviders_ : EncryptionProviders
}.

Record KubeOneCluster : Type := {
  Hosts : list HostConfig;
  VersionsKubernetes : string;
  CloudProviderCloudConfig : string;
  Proxy : ProxyConfig;
  Features_ : Features
}.

End kubeoneapi.
Import kubeoneapi.

#[global] Instance OperatingSystemName_eq_dec : EqDecision OperatingSystemName.
Proof. solve_decision. Defined.

(** ** The live cluster (package state) *)

Record Host : Type := {
  Config : HostConfig;
  Initialized : bool
}.

Record Cluster : Type := {
  ControlPlane : list Host;
  StaticWorkers : list Host
}.

(** ** What a run does to the outside world *)

(** [time.Duration] counts nanoseconds. *)
Definition Second : Z := 1000000000.
Definition Minute : Z := 60 * Second.

Inductive Event : Type :=
| EvLog (os : option OperatingSystemName) (msg : string)
| EvRun (host : Z) (template : string) (vars : list (string * string))
| EvRunRaw (host : Z) (script : string)
| EvSleep (d : Z)
| EvClose (host : Z).

(** [runner.Runner]: the connection it is bound to is named by the host
    that owns it. *)
Record Runner : Type := { Conn : Z }.

(** [state.State], with the history of effects ([Trace]) and the
    connection cache ([OpenConns]) made explicit. *)
Record State : Type := {
  Cluster_ : KubeOneCluster;
  LiveCluster : Cluster;
  Configuration : gmap string string;
  ForceInstall : bool;
  ManifestFilePath : string;
  Runner_ : Runner;
  Trace : list Event;
  OpenConns : gset Z
}.

Definition setConfiguration (c : gmap string string) (s : State) : State :=
  {| Cluster_ := Cluster_ s; LiveCluster := LiveCluster s; Configuration := c;
     ForceInstall := ForceInstall s; ManifestFilePath := ManifestFilePath s;
     Runner_ := Runner_ s; Trace := Trace s; OpenConns := OpenConns s |}.

Definition setForceInstall (b : bool) (s : State) : State :=
  {| Cluster_ := Cluster_ s; LiveCluster := LiveCluster s;
     Configuration := Configuration s;
     ForceInstall := b; ManifestFilePath := ManifestFilePath s;
     Runner_ := Runner_ s; Trace := Trace s; OpenConns := OpenConns s |}.

Definition setRunner (r : Runner) (s : State) : State :=
  {| Cluster_ := Cluster_ s; LiveCluster := LiveCluster s;
     Configuration := Configuration s;
     ForceInstall := ForceInstall s; ManifestFilePath := ManifestFilePath s;
     Runner_ := r; Trace := Trace s; OpenConns := OpenConns s |}.

Definition setTrace (t : list Event) (s : State) : State :=
  {| Cluster_ := Cluster_ s; LiveCluster := LiveCluster s;
     Configuration := Configuration s;
     ForceInstall := ForceInstall s; ManifestFilePath := ManifestFilePath s;
     Runner_ := Runner_ s; Trace := t; OpenConns := OpenConns s |}.

Definition setOpenConns (c : gset Z) (s : State) : State :=
  {| Cluster_ := Cluster_ s; LiveCluster := LiveCluster s;
     Configuration := Configuration s;
     ForceInstall := ForceInstall s; ManifestFilePath := ManifestFilePath s;
     Runner_ := Runner_ s; Trace := Trace s; OpenConns := c |}.

Definition emit (ev : Event) (s : State) : State :=
  setTrace (Trace s ++ [ev]) s.

(** ** The collaborators outside this file *)

Record World : Type := {
  (** package scripts: template rendering, pure *)
  EnvironmentFile : KubeOneCluster -> result string;
  DaemonsEnvironmentDropIn : list string -> result string;
  DisableNMCloudSetup : result string;
  KubeadmDebian : KubeOneCluster -> bool -> result string;
  KubeadmCentOS : KubeOneCluster -> bool -> result string;
  KubeadmAmazonLinux : KubeOneCluster -> bool -> result string;
  KubeadmFlatcar : KubeOneCluster -> result string;
  (** packages admissionconfig, encryptionproviders, templates *)
  NewAdmissionConfig : string -> PodNodeSelector.t -> result string;
  NewEncyrptionProvidersConfig : State -> result string;
  KubernetesToYAML : list string -> result string;
  (** methods of state.State defined outside this file *)
  ShouldEnableEncryption : KubeOneCluster -> Cluster -> bool;
  EncryptionEnabled : KubeOneCluster -> Cluster -> bool;
  GetEncryptionProviderConfigName : KubeOneCluster -> Cluster -> string;
  (** the file system of the operator's machine: the content found at
      [filePath], resolved against the manifest's location *)
  ReadFile : string -> string -> result string;
  (** the remote side: the error, if any, of a command given all that
      happened before it *)
  Exec : list Event -> Event -> option error
}.

Definition Task : Type := State -> State * option error.
Definition NodeTask : Type := State -> HostConfig -> Z -> State * option error.

Inductive RunModeEnum : Type := RunSequential | RunParallel.

(** ** The operations of the run context *)

Definition nl : string := String (Ascii.ascii_of_nat 10) EmptyString.

Module Logger.
(** [s.Logger.Infoln], [Info], [Infof]: a line without fields. *)
Definition Infoln (msg : string) (s : State) : State :=
  emit (EvLog None msg) s.

(** [s.Logger.WithField("os", os)] is the entry [Some os]. *)
Definition WithField_os (os : OperatingSystemName)
  : option OperatingSystemName := Some os.

Definition EntryInfoln (logger : option OperatingSystemName) (msg : string)
    (s : State) : State :=
  emit (EvLog logger msg) s.
End Logger.

Module time.
(** [time.Sleep(d)] *)
Definition Sleep (d : Z) (s : State) : State := emit (EvSleep d) s.
End time.

Section Pipeline.

Variable W : World.

(** [s.Runner.RunRaw(cmd)]: the stdout and stderr results are dropped at
    every call site of this file, the error is what is kept. *)
Definition RunRaw (cmd : string) : Task := fun s =>
  let ev := EvRunRaw (Conn (Runner_ s)) cmd in
  (emit ev s, Exec W (Trace s) ev).

(** [s.Runner.Run(template, variables)] *)
Definition Run (template : string) (vars : list (string * string)) : Task :=
  fun s =>
    let ev := EvRun (Conn (Runner_ s)) template vars in
    (emit ev s, Exec W (Trace s) ev).

(** [s.Runner.Conn.Close()]: the connection leaves the cache. *)
Definition ConnClose (s : State) : State :=
  let h := Conn (Runner_ s) in
  setOpenConns (OpenConns s ∖ {[h]}) (emit (EvClose h) s).

(** Modelled from the spec: [Configuration.AddFile] of package
    configupload is not in this file; the bundle is a mapping from
    relative path to content in which the last writer overwrites
    (section 3, ConfigurationBundle). *)
Definition AddFile (filename content : string) (s : State) : State :=
  setConfiguration (<[filename := content]> (Configuration s)) s.

(** Modelled from the spec: [Configuration.AddFilePath] of package
    configupload is not in this file; the source file is read from an
    external path and re-keyed under the bundle path, an unreadable
    source is an error and adds nothing (section 4.3). *)
Definition AddFilePath (filename filePath manifestFilePath : string) : Task :=
  fun s =>
    match ReadFile W filePath manifestFilePath with
    | Err e => (s, Some e)
    | Ok content => (AddFile filename content s, None)
    end.

(** Modelled from the spec: [State.RunTaskOnAllNodes] of package state is
    not in this file.  Section 4.1: in sequential mode hosts are taken in
    registry order and the first failure, wrapped with the host identity,
    ends the call; in concurrent mode every host runs to completion, the
    call returns when all have finished, and the failures are merged into
    one aggregate naming every failing host.  Each invocation first gets
    the host's connection and binds the runner to it.  The concurrent
    executions are represented by the schedule that runs the hosts one
    after the other in registry order. *)
Definition runOnNode (task : NodeTask) (node : HostConfig) : Task := fun s =>
  let s := setOpenConns (OpenConns s ∪ {[ID node]}) s in
  let s := setRunner {| Conn := ID node |} s in
  task s node (ID node).

Fixpoint runSequential (task : NodeTask) (hosts : list HostConfig) : Task :=
  fun s =>
    match hosts with
    | [] => (s, None)
    | node :: rest =>
        match runOnNode task node s with
        | (s, Some e) => (s, Some (ErrHost (ID node) e))
        | (s, None) => runSequential task rest s
        end
    end.

Fixpoint runConcurrent (task : NodeTask) (hosts : list HostConfig)
    (s : State) : State * list error :=
  match hosts with
  | [] => (s, [])
  | node :: rest =>
      let '(s, r) := runOnNode task node s in
      let '(s, failed) := runConcurrent task rest s in
      (s, match r with
          | None => failed
          | Some e => ErrHost (ID node) e :: failed
          end)
  end.

Definition RunTaskOnAllNodes (task : NodeTask) (mode : RunModeEnum) : Task :=
  fun s =>
    match mode with
    | RunSequential => runSequential task (Hosts (Cluster_ s)) s
    | RunParallel =>
        let '(s', failed) := runConcurrent task (Hosts (Cluster_ s)) s in
        (s', match failed with
             | [] => None
             | _ :: _ => Some (ErrHosts failed)
             end)
    end.

(** Modelled from the spec: [runOnOS] is not in this file.  Section 4.2:
    the host's operating system is resolved against the table, and an
    unmapped one is a fatal configuration error for that host. *)
Fixpoint lookupOS (os : OperatingSystemName)
    (fnMap : list (OperatingSystemName * Task)) : option Task :=
  match fnMap with
  | [] => None
  | (k, fn) :: rest => if decide (k = os) then Some fn else lookupOS os rest
  end.

Definition runOnOS (os : OperatingSystemName)
    (fnMap : list (OperatingSystemName * Task)) : Task := fun s =>
  match lookupOS os fnMap with
  | Some fn => fn s
  | None => (s, Some (ErrNew "not a supported operating system"))
  end.

End Pipeline.

(** ** The tasks of prerequisites.go *)

Section Tasks.

Variable W : World.

Definition createEnvironmentFile : Task := fun s =>
  match EnvironmentFile W (Cluster_ s) with
  | Err err => (s, Some err)
  | Ok cmd => RunRaw W cmd s
  end.

Definition containerRuntimeEnvironment : Task := fun s =>
  if String.eqb (HTTP (Proxy (Cluster_ s))) ""
     && String.eqb (HTTPS (Proxy (Cluster_ s))) ""
     && String.eqb (NoProxy (Proxy (Cluster_ s))) ""
  then (s, None)
  else
    let s := Logger.Infoln
               "Configuring docker/containerd/kubelet environment..." s in
    match DaemonsEnvironmentDropIn W ["docker"; "containerd"; "kubelet"] with
    | Err err => (s, Some err)
    | Ok cmd => RunRaw W cmd s
    end.

Definition setupProxy (logger : option OperatingSystemName) : Task := fun s =>
  let s := Logger.EntryInfoln logger "Creating environment file..." s in
  match createEnvironmentFile s with
  | (s, Some err) =>
      (s, Some (ErrWrap err "failed to create environment file"))
  | (s, None) =>
      let s := Logger.EntryInfoln logger "Configuring proxy..." s in
      match containerRuntimeEnvironment s with
      | (s, Some err) =>
          (s, Some (ErrWrap err "failed to configure proxy for docker daemon"))
      | (s, None) => (s, None)
      end
  end.

Definition installKubeadmDebian : Task := fun s =>
  match KubeadmDebian W (Cluster_ s) (ForceInstall s) with
  | Err err => (s, Some err)
  | Ok cmd =>
      let '(s, err) := RunRaw W cmd s in
      (s, errors.WithStack err)
  end.

Definition installKubeadmCentOS : Task := fun s =>
  match KubeadmCentOS W (Cluster_ s) (ForceInstall s) with
  | Err err => (s, Some err)
  | Ok cmd =>
      let '(s, err) := RunRaw W cmd s in
      (s, errors.WithStack err)
  end.

Definition installKubeadmAmazonLinux : Task := fun s =>
  match KubeadmAmazonLinux W (Cluster_ s) (ForceInstall s) with
  | Err err => (s, Some err)
  | Ok cmd =>
      let '(s, err) := RunRaw W cmd s in
      (s, errors.WithStack err)
  end.

Definition installKubeadmFlatcar : Task := fun s =>
  match KubeadmFlatcar W (Cluster_ s) with
  | Err err => (s, Some err)
  | Ok cmd =>
      let '(s, err) := RunRaw W cmd s in
      (s, errors.WithStack err)
  end.

(** The table of [installKubeadm], in the order of the map literal. *)
Definition installKubeadmTable : list (OperatingSystemName * Task) :=
  [ (OperatingSystemNameAmazon, installKubeadmAmazonLinux);
    (OperatingSystemNameCentOS, installKubeadmCentOS);
    (OperatingSystemNameDebian, installKubeadmDebian);
    (OperatingSystemNameFlatcar, installKubeadmFlatcar);
    (OperatingSystemNameRHEL, installKubeadmCentOS);
    (OperatingSystemNameUbuntu, installKubeadmDebian) ].

Definition installKubeadm (node : HostConfig) : Task :=
  runOnOS (OperatingSystem node) installKubeadmTable.

Definition installPrerequisitesOnNode : NodeTask := fun s node _ =>
  let logger := Logger.WithField_os (OperatingSystem node) in
  match setupProxy logger s with
  | (s, Some err) => (s, Some err)
  | (s, None) =>
      let s := Logger.EntryInfoln logger "Installing kubeadm..." s in
      let '(s, err) := installKubeadm node s in
      (s, errors.Wrap err "failed to install kubeadm")
  end.

(** The template of the pre-pull command, after [heredoc.Doc]. *)
Definition prePullTemplate : string :=
  "sudo kubeadm config images pull --kubernetes-version {{ .KUBERNETES_VERSION }}"
  +:+ nl.

Definition prePullImages : NodeTask := fun ctx node conn =>
  let ctx := Logger.Infoln "Pre-pull images" ctx in
  Run W prePullTemplate
    [("KUBERNETES_VERSION", VersionsKubernetes (Cluster_ ctx))] ctx.

Definition installPrerequisites : Task := fun s =>
  let s := Logger.Infoln "Installing prerequisites..." s in
  match RunTaskOnAllNodes installPrerequisitesOnNode RunParallel s with
  | (s, Some err) =>
      (s, Some (ErrWrap err "failed to install prerequisites"))
  | (s, None) => RunTaskOnAllNodes prePullImages RunParallel s
  end.

(** [generateConfigurationFiles], lines 63-67: the audit policy file. *)
Definition addAuditPolicy : Task := fun s =>
  match StaticAuditLog_ (Features_ (Cluster_ s)) with
  | Some sal =>
      if StaticAuditLog.Enable sal then
        match AddFilePath W "cfg/audit-policy.yaml"
                (StaticAuditLog.PolicyFilePath (StaticAuditLog.Config_ sal))
                (ManifestFilePath s) s with
        | (s, Some err) => (s, Some (ErrWrap err "unable to add policy file"))
        | (s, None) => (s, None)
        end
      else (s, None)
  | None => (s, None)
  end.

(** [generateConfigurationFiles], lines 68-78: the admission
    configuration and the pod-node-selector file. *)
Definition addAdmissionConfig : Task := fun s =>
  match PodNodeSelector_ (Features_ (Cluster_ s)) with
  | Some pns =>
      if PodNodeSelector.Enable pns then
        match NewAdmissionConfig W (VersionsKubernetes (Cluster_ s)) pns with
        | Err err =>
            (s, Some (ErrWrap err
                        "failed to generate admissionconfiguration manifest"))
        | Ok admissionCfg =>
            let s := AddFile "cfg/admission-config.yaml" admissionCfg s in
            match AddFilePath W "cfg/podnodeselector.yaml"
                    (PodNodeSelector.ConfigFilePath
                       (PodNodeSelector.Config_ pns))
                    (ManifestFilePath s) s with
            | (s, Some err) =>
                (s, Some (ErrWrap err
                            "failed to add podnodeselector config file"))
            | (s, None) => (s, None)
            end
        end
      else (s, None)
  | None => (s, None)
  end.

(** [generateConfigurationFiles], lines 80-98: the encryption providers
    configuration. *)
Definition addEncryptionProviders : Task := fun s =>
  if ShouldEnableEncryption W (Cluster_ s) (LiveCluster s)
     || EncryptionEnabled W (Cluster_ s) (LiveCluster s)
  then
    let configFileName :=
      GetEncryptionProviderConfigName W (Cluster_ s) (LiveCluster s) in
    let custom :=
      CustomEncryptionConfiguration
        (EncryptionProviders_ (Features_ (Cluster_ s))) in
    if negb (String.eqb custom "") then
      let config := custom in
      (AddFile ("cfg/" +:+ configFileName) config s, None)
    else if ShouldEnableEncryption W (Cluster_ s) (LiveCluster s) then
      match NewEncyrptionProvidersConfig W s with
      | Err err => (s, Some err)
      | Ok encryptionProvidersConfig =>
          match KubernetesToYAML W [encryptionProvidersConfig] with
          | Err err => (s, Some err)
          | Ok config =>
              (AddFile ("cfg/" +:+ configFileName) config s, None)
          end
      end
    else (s, None)
  else (s, None).

Definition generateConfigurationFiles : Task := fun s =>
  let s := AddFile "cfg/cloud-config"
             (CloudProviderCloudConfig (Cluster_ s)) s in
  match addAuditPolicy s with
  | (s, Some err) => (s, Some err)
  | (s, None) =>
      match addAdmissionConfig s with
      | (s, Some err) => (s, Some err)
      | (s, None) => addEncryptionProviders s
      end
  end.

(** The body of the loop of [disableNMCloudSetup] over [allHosts]. *)
Fixpoint disableNMCloudSetupLoop (node : HostConfig) (allHosts : list Host)
    : Task := fun s =>
  match allHosts with
  | [] => (s, None)
  | host :: rest =>
      if (ID node =? ID (Config host)) && negb (Initialized host) then
        match DisableNMCloudSetup W with
        | Err err => (s, Some err)
        | Ok cmd =>
            let s := Logger.Infoln
                "Disable nm-cloud-setup... the node will be rebooted..." s in
            let '(s, _) := RunRaw W cmd s in
            let timeout := 1 * Minute in
            let s := Logger.Infoln
                "Waiting for 1m0s before proceeding to give machines time to boot up..."
                s in
            let s := time.Sleep timeout s in
            let s := ConnClose s in
            disableNMCloudSetupLoop node rest s
        end
      else disableNMCloudSetupLoop node rest s
  end.

Definition disableNMCloudSetup : NodeTask := fun s node _ =>
  if negb (bool_decide (OperatingSystem node = OperatingSystemNameRHEL))
  then (s, None)
  else
    let allHosts := ControlPlane (LiveCluster s) in
    let allHosts := (allHosts ++ StaticWorkers (LiveCluster s))%list in
    disableNMCloudSetupLoop node allHosts s.

End Tasks.

(** ** Observations on runs *)

(** The scripts sent through [RunRaw], oldest first. *)
Fixpoint scriptsRun (tr : list Event) : list string :=
  match tr with
  | [] => []
  | EvRunRaw _ script :: rest => script :: scriptsRun rest
  | _ :: rest => scriptsRun rest
  end.

(** The script a rendering yields, if it yields one. *)
Definition rendered (r : result string) : list string :=
  match r with
  | Ok cmd => [cmd]
  | Err _ => []
  end.

(** An event of the image pre-pull: the templated [Run]. *)
Definition isPrePull (ev : Event) : bool :=
  match ev with
  | EvRun _ _ _ => true
  | _ => false
  end.

(** An event of the per-node setup: a raw script (environment file,
    service drop-in, kubeadm installation). *)
Definition isNodeSetup (ev : Event) : bool :=
  match ev with
  | EvRunRaw _ _ => true
  | _ => false
  end.

(** Every pre-pull event of [tr] comes before every node-setup event. *)
Definition prePullFirst (tr : list Event) : Prop :=
  forall (i j : nat) (a b : Event),
    tr !! i = Some a -> tr !! j = Some b ->
    isPrePull a = true -> isNodeSetup b = true -> (i < j)%nat.

(** Every node-setup event of [tr] comes before every pre-pull event. *)
Definition nodeSetupFirst (tr : list Event) : Prop :=
  forall (i j : nat) (a b : Event),
    tr !! i = Some a -> tr !! j = Some b ->
    isNodeSetup a = true -> isPrePull b = true -> (i < j)%nat.

(** The entries of the live cluster that make [disableNMCloudSetup] act:
    the node's own, not initialized. *)
Definition pending (node : HostConfig) (allHosts : list Host) : list Host :=
  List.filter
    (fun host => (ID node =? ID (Config host)) && negb (Initialized host))
    allHosts.

(** What one round of the reboot handling leaves in the trace. *)
Definition rebootRound (h : Z) (cmd : string) : list Event :=
  [ EvLog None "Disable nm-cloud-setup... the node will be rebooted...";
    EvRunRaw h cmd;
    EvLog None
      "Waiting for 1m0s before proceeding to give machines time to boot up...";
    EvSleep Minute;
    EvClose h ].

Definition staticAuditLogEnabled (c : KubeOneCluster) : bool :=
  match StaticAuditLog_ (Features_ c) with
  | Some sal => StaticAuditLog.Enable sal
  | None => false
  end.

Definition podNodeSelectorEnabled (c : KubeOneCluster) : bool :=
  match PodNodeSelector_ (Features_ c) with
  | Some pns => PodNodeSelector.Enable pns
  | None => false
  end.

(** An install procedure honours the force-reinstall flag when the flag
    can change the scripts it sends. *)
Definition forceSensitive (proc : World -> Task) : Prop :=
  exists (W : World) (s : State),
    scriptsRun (Trace (proc W (setForceInstall true s)).1)
    <> scriptsRun (Trace (proc W (setForceInstall false s)).1).

(** A step that touches nothing but the bundle. *)
Definition onlyBundle (s s' : State) : Prop :=
  s' = setConfiguration (Configuration s') s.

(** [s'] is [s] after some more events, all of them satisfying [P]. *)
Definition grows (P : Event -> Prop) (s s' : State) : Prop :=
  exists evs, Trace s' = (Trace s ++ evs)%list /\ Forall P evs.

(** ** A concrete fleet *)

Module Demo.

Definition debian1 : HostConfig :=
  {| ID := 1; OperatingSystem := OperatingSystemNameDebian |}.
Definition rhel2 : HostConfig :=
  {| ID := 2; OperatingSystem := OperatingSystemNameRHEL |}.
Definition centos3 : HostConfig :=
  {| ID := 3; OperatingSystem := OperatingSystemNameCentOS |}.

Definition noFeatures : Features :=
  {| StaticAuditLog_ := None; PodNodeSelector_ := None;
     EncryptionProviders_ := {| CustomEncryptionConfiguration := "" |} |}.

(** Static audit logging on, with a policy file that does not exist. *)
Definition auditFeatures : Features :=
  {| StaticAuditLog_ :=
       Some {| StaticAuditLog.Enable := true;
               StaticAuditLog.Config_ :=
                 {| StaticAuditLog.PolicyFilePath := "missing.yaml" |} |};
     PodNodeSelector_ := None;
     EncryptionProviders_ := {| CustomEncryptionConfiguration := "" |} |}.

(** Static audit logging and the pod-node-selector on, files present. *)
Definition allFeatures : Features :=
  {| StaticAuditLog_ :=
       Some {| StaticAuditLog.Enable := true;
               StaticAuditLog.Config_ :=
                 {| StaticAuditLog.PolicyFilePath := "policy.yaml" |} |};
     PodNodeSelector_ :=
       Some {| PodNodeSelector.Enable := true;
               PodNodeSelector.Config_ :=
                 {| PodNodeSelector.ConfigFilePath := "selector.yaml" |} |};
     EncryptionProviders_ := {| CustomEncryptionConfiguration := "" |} |}.

Definition cluster (f : Features) : KubeOneCluster :=
  {| Hosts := [debian1; rhel2; centos3];
     VersionsKubernetes := "1.24.3";
     CloudProviderCloudConfig := "[global]";
     Proxy := {| HTTP := ""; HTTPS := ""; NoProxy := "" |};
     Features_ := f |}.

(** Host 2 has not joined the cluster yet, the others have. *)
Definition live : Cluster :=
  {| ControlPlane :=
       [ {| Config := debian1; Initialized := true |};
         {| Config := rhel2; Initialized := false |} ];
     StaticWorkers := [ {| Config := centos3; Initialized := true |} ] |}.

(** No host has joined yet. *)
Definition liveFresh : Cluster :=
  {| ControlPlane :=
       [ {| Config := debian1; Initialized := false |};
         {| Config := rhel2; Initialized := false |} ];
     StaticWorkers := [ {| Config := centos3; Initialized := false |} ] |}.

(** Every host has joined. *)
Definition liveJoined : Cluster :=
  {| ControlPlane :=
       [ {| Config := debian1; Initialized := true |};
         {| Config := rhel2; Initialized := true |} ];
     StaticWorkers := [ {| Config := centos3; Initialized := true |} ] |}.

Definition state (f : Features) (l : Cluster) (h : Z) : State :=
  {| Cluster_ := cluster f; LiveCluster := l; Configuration := ∅;
     ForceInstall := false; ManifestFilePath := "/etc/kubeone/kubeone.yaml";
     Runner_ := {| Conn := h |}; Trace := []; OpenConns := {[ h ]} |}.

Definition fresh (h : Z) : State := state noFeatures liveFresh h.
Definition joined (h : Z) : State := state noFeatures liveJoined h.

(** Templates that render; the package installers mention the flag they
    are given.  The reboot command loses its connection, every other
    command succeeds.  Encryption at rest is already enabled. *)
Definition world : World :=
  {| EnvironmentFile := fun _ => Ok "write /etc/kubeone/proxy-env";
     DaemonsEnvironmentDropIn := fun _ => Ok "write proxy drop-ins";
     DisableNMCloudSetup := Ok "disable nm-cloud-setup";
     KubeadmDebian := fun _ force =>
       Ok (if force then "apt reinstall kubeadm" else "apt install kubeadm");
     KubeadmCentOS := fun _ force =>
       Ok (if force then "yum reinstall kubeadm" else "yum install kubeadm");
     KubeadmAmazonLinux := fun _ force =>
       Ok (if force then "yum reinstall kubeadm" else "yum install kubeadm");
     KubeadmFlatcar := fun _ => Ok "unpack kubeadm";
     NewAdmissionConfig := fun _ _ => Ok "kind: AdmissionConfiguration";
     NewEncyrptionProvidersConfig := fun _ => Ok "kind: EncryptionConfiguration";
     KubernetesToYAML := fun objs => Ok (String.concat "---" objs);
     ShouldEnableEncryption := fun _ _ => false;
     EncryptionEnabled := fun _ _ => true;
     GetEncryptionProviderConfigName := fun _ _ => "encryption-providers.yaml";
     ReadFile := fun filePath _ =>
       if String.eqb filePath "missing.yaml"
       then Err (ErrNew "no such file")
       else Ok filePath;
     Exec := fun _ ev =>
       match ev with
       | EvRunRaw _ "disable nm-cloud-setup" => Some (ErrNew "connection lost")
       | _ => None
       end |}.

End Demo.

(** ** Upload of the bundle *)

(** What [uploadConfigurationFilesToNode] needs beyond [World]: the working
    directory of the run context ([s.WorkDir]), [Configuration.UploadTo] of
    package configupload and the four install scripts of package scripts,
    none of them in this file. *)
Record Uploader : Type := {
  WorkDir : string;
  UploadTo : Z -> string -> Task;
  SaveCloudConfig : string -> result string;
  SaveAuditPolicyConfig : string -> result string;
  SavePodNodeSelectorConfig : string -> result string;
  SaveEncryptionProvidersConfig : string -> string -> result string
}.

Section Upload.

Variable W : World.
Variable U : Uploader.

Definition uploadConfigurationFilesToNode : NodeTask := fun s _ conn =>
  let s := Logger.Infoln "Uploading config files..." s in
  match UploadTo U conn (WorkDir U) s with
  | (s, Some err) => (s, Some (ErrWrap err "failed to upload"))
  | (s, None) =>
      match SaveCloudConfig U (WorkDir U) with
      | Err err => (s, Some err)
      | Ok cmd =>
          match RunRaw W cmd s with
          | (s, Some err) => (s, Some err)
          | (s, None) =>
              match SaveAuditPolicyConfig U (WorkDir U) with
              | Err err => (s, Some err)
              | Ok cmd =>
                  match RunRaw W cmd s with
                  | (s, Some err) => (s, Some err)
                  | (s, None) =>
                      match SavePodNodeSelectorConfig U (WorkDir U) with
                      | Err err => (s, Some err)
                      | Ok cmd =>
                          match RunRaw W cmd s with
                          | (s, Some err) => (s, Some err)
                          | (s, None) =>
                              match SaveEncryptionProvidersConfig U (WorkDir U)
                                      (GetEncryptionProviderConfigName W
                                         (Cluster_ s) (LiveCluster s)) with
                              | Err err => (s, Some err)
                              | Ok cmd =>
                                  match RunRaw W cmd s with
                                  | (s, Some err) => (s, Some err)
                                  | (s, None) => (s, None)
                                  end
                              end
                          end
                      end
                  end
              end
          end
      end
  end.

Definition uploadConfigurationFiles : Task :=
  RunTaskOnAllNodes uploadConfigurationFilesToNode RunParallel.

End Upload.

(** ** Further observations *)

(** Everything of the run context that is not the record of effects: the
    cluster specification, the live cluster, the bundle, the force flag and
    the manifest path. *)
Definition sameContext (s s' : State) : Prop :=
  Cluster_ s' = Cluster_ s
  /\ LiveCluster s' = LiveCluster s
  /\ Configuration s' = Configuration s
  /\ ForceInstall s' = ForceInstall s
  /\ ManifestFilePath s' = ManifestFilePath s.

(** A log line, or a command sent to one of the hosts [ids]. *)
Definition fleetEvent (ids : list Z) (ev : Event) : Prop :=
  match ev with
  | EvLog _ _ => True
  | EvRun h _ _ => In h ids
  | EvRunRaw h _ => In h ids
  | EvSleep _ => False
  | EvClose _ => False
  end.

(** What the pre-pull leaves in the trace for one host. *)
Definition prePullRound (version : string) (node : HostConfig) : list Event :=
  [ EvLog None "Pre-pull images";
    EvRun (ID node) prePullTemplate [("KUBERNETES_VERSION", version)] ].



(** A sequence of adds applied to a bundle, oldest first. *)
Definition applyOps (ops : list (string * string)) (m : gmap string string)
    : gmap string string :=
  foldl (fun m kv => <[kv.1 := kv.2]> m) m ops.

(** On every state that differs from [s] in the bundle at most, the step
    [B] does nothing but a fixed sequence of adds and returns a fixed
    result. *)
Definition insertsOnly (B : Task) (s : State) : Prop :=
  exists (ops : list (string * string)) (r : option error),
    forall s', onlyBundle s s' ->
      B s' = (setConfiguration (applyOps ops (Configuration s')) s', r).

Module Demo2.

(** An upload that always succeeds and leaves no trace of its own. *)
Definition uploader : Uploader :=
  {| WorkDir := "./kubeone";
     UploadTo := fun _ _ s => (s, None);
     SaveCloudConfig := fun dir => Ok ("install cloud-config from " +:+ dir);
     SaveAuditPolicyConfig := fun dir => Ok ("install audit policy from " +:+ dir);
     SavePodNodeSelectorConfig := fun dir =>
       Ok ("install podnodeselector from " +:+ dir);
     SaveEncryptionProvidersConfig := fun dir name =>
       Ok ("install " +:+ name +:+ " from " +:+ dir) |}.


(** A custom encryption configuration is supplied. *)
Definition customFeatures : Features :=
  {| StaticAuditLog_ := None; PodNodeSelector_ := None;
     EncryptionProviders_ :=
       {| CustomEncryptionConfiguration := "kind: EncryptionConfiguration" |} |}.

(** The disabling script cannot be rendered. *)
Definition brokenTemplate : World :=
  {| EnvironmentFile := EnvironmentFile Demo.world;
     DaemonsEnvironmentDropIn := DaemonsEnvironmentDropIn Demo.world;
     DisableNMCloudSetup := Err (ErrNew "template: bad syntax");
     KubeadmDebian := KubeadmDebian Demo.world;
     KubeadmCentOS := KubeadmCentOS Demo.world;
     KubeadmAmazonLinux := KubeadmAmazonLinux Demo.world;
     KubeadmFlatcar := KubeadmFlatcar Demo.world;
     NewAdmissionConfig := NewAdmissionConfig Demo.world;
     NewEncyrptionProvidersConfig := NewEncyrptionProvidersConfig Demo.world;
     KubernetesToYAML := KubernetesToYAML Demo.world;
     ShouldEnableEncryption := ShouldEnableEncryption Demo.world;
     EncryptionEnabled := EncryptionEnabled Demo.world;
     GetEncryptionProviderConfigName :=
       GetEncryptionProviderConfigName Demo.world;
     ReadFile := ReadFile Demo.world;
     Exec := Exec Demo.world |}.

End Demo2.

(** * Properties *)

(** ** The reboot handling of RHEL hosts *)

Section DisableNMCloudSetup.

Variable W : World.

Lemma disableNMCloudSetupLoop_idle (node : HostConfig) (allHosts : list Host)
    (s : State) :
  pending node allHosts = [] ->
  disableNMCloudSetupLoop W node allHosts s = (s, None).
Proof.
  induction allHosts as [|host rest IH]; intros Hp; [reflexivity|].
  cbn in Hp |- *.
  destruct ((ID node =? ID (Config host)) && negb (Initialized host));
    [discriminate|].
  now apply IH.
Qed.

Lemma pending_nil_iff (node : HostConfig) (allHosts : list Host) :
  pending node allHosts = [] <->
  (forall host, In host allHosts ->
     ID (Config host) = ID node -> Initialized host = true).
Proof.
  induction allHosts as [|host rest IH]; cbn.
  - split; [intros _ ? []|reflexivity].
  - destruct (ID node =? ID (Config host)) eqn:Hid; cbn.
    + apply Z.eqb_eq in Hid.
      destruct (Initialized host) eqn:Hin; cbn.
      * rewrite IH. split.
        -- intros H h [<-|Hh]; [now intros _|now apply H].
        -- intros H h Hh. apply H. now right.
      * split; [discriminate|].
        intros H. specialize (H host (or_introl eq_refl) (eq_sym Hid)).
        congruence.
    + apply Z.eqb_neq in Hid. rewrite IH. split.
      * intros H h [<-|Hh]; [intros E; now rewrite E in Hid|now apply H].
      * intros H h Hh. apply H. now right.
Qed.

Lemma disableNMCloudSetupLoop_rounds (node : HostConfig) (cmd : string) :
  DisableNMCloudSetup W = Ok cmd ->
  forall (allHosts : list Host) (s : State),
    let r := disableNMCloudSetupLoop W node allHosts s in
    r.2 = None
    /\ Runner_ r.1 = Runner_ s
    /\ Trace r.1
       = (Trace s ++
          concat (map (fun _ => rebootRound (Conn (Runner_ s)) cmd)
                      (pending node allHosts)))%list
    /\ OpenConns r.1
       = match pending node allHosts with
         | [] => OpenConns s
         | _ :: _ => OpenConns s ∖ {[ Conn (Runner_ s) ]}
         end.
Proof.
  intros Hcmd. induction allHosts as [|host rest IH]; intros s; cbn.
  - rewrite app_nil_r. auto.
  - destruct ((ID node =? ID (Config host)) && negb (Initialized host)).
    + rewrite Hcmd. cbn.
      match goal with
      | |- context [disableNMCloudSetupLoop W node rest ?s1] =>
          specialize (IH s1); cbn in IH;
          destruct IH as (He & Hr & Ht & Ho)
      end.
      repeat split; [exact He|exact Hr| |].
      * rewrite Ht. rewrite <- !app_assoc. reflexivity.
      * rewrite Ho. destruct (pending node rest); [reflexivity|].
    apply set_eq. intros x. rewrite !elem_of_difference. tauto.
    + apply IH.
Qed.

End DisableNMCloudSetup.

(** What [disableNMCloudSetup] does on a RHEL node that has an entry to
    act on, once the script is rendered. *)
Lemma disableNMCloudSetup_reboot (W : World) (s : State)
    (node : HostConfig) (conn : Z) (cmd : string) :
  OperatingSystem node = OperatingSystemNameRHEL ->
  DisableNMCloudSetup W = Ok cmd ->
  (exists host,
     In host (ControlPlane (LiveCluster s) ++ StaticWorkers (LiveCluster s))
     /\ ID (Config host) = ID node /\ Initialized host = false) ->
  let allHosts :=
    (ControlPlane (LiveCluster s) ++ StaticWorkers (LiveCluster s))%list in
  let r := disableNMCloudSetup W s node conn in
  r.2 = None
  /\ pending node allHosts <> []
  /\ Trace r.1
     = (Trace s ++
        concat (map (fun _ => rebootRound (Conn (Runner_ s)) cmd)
                    (pending node allHosts)))%list
  /\ Conn (Runner_ s) ∉ OpenConns r.1.
Proof.
  intros Hos Hcmd (host & Hin & Hid & Hinit) allHosts r.
  assert (Hp : pending node allHosts <> []).
  { intros Hnil. rewrite pending_nil_iff in Hnil.
    specialize (Hnil host Hin Hid). congruence. }
  subst r. unfold disableNMCloudSetup. rewrite Hos.
  rewrite bool_decide_eq_true_2 by reflexivity. cbn.
  destruct (disableNMCloudSetupLoop_rounds W node cmd Hcmd allHosts s)
    as (He & _ & Ht & Ho).
  fold allHosts. repeat split; [exact He|exact Hp|exact Ht|].
  rewrite Ho. destruct (pending node allHosts); [congruence|].
  rewrite elem_of_difference, elem_of_singleton. tauto.
Qed.

(** C2. On a RHEL host that the live cluster lists as not initialized, once
    the disabling script is rendered, [disableNMCloudSetup] returns nil
    whatever the remote side answers to the script ([W], and with it the
    outcome of [RunRaw], is arbitrary); each round runs the script, waits
    one minute and then closes the runner's connection, which is gone from
    the cache at the end.  Run as a task on the node, the connection that
    is closed is the node's own. *)
Theorem disableNMCloudSetup_discards_error (W : World) (s : State)
    (node : HostConfig) (conn : Z) (cmd : string) :
  OperatingSystem node = OperatingSystemNameRHEL ->
  DisableNMCloudSetup W = Ok cmd ->
  (exists host,
     In host (ControlPlane (LiveCluster s) ++ StaticWorkers (LiveCluster s))
     /\ ID (Config host) = ID node /\ Initialized host = false) ->
  let allHosts :=
    (ControlPlane (LiveCluster s) ++ StaticWorkers (LiveCluster s))%list in
  let r := disableNMCloudSetup W s node conn in
  let t := runOnNode (disableNMCloudSetup W) node s in
  r.2 = None
  /\ pending node allHosts <> []
  /\ Trace r.1
     = (Trace s ++
        concat (map (fun _ => rebootRound (Conn (Runner_ s)) cmd)
                    (pending node allHosts)))%list
  /\ (Conn (Runner_ s) ∉ OpenConns r.1)
  /\ t.2 = None
  /\ Trace t.1
     = (Trace s ++
        concat (map (fun _ => rebootRound (ID node) cmd)
                    (pending node allHosts)))%list
  /\ ID node ∉ OpenConns t.1.
Proof.
  intros Hos Hcmd Hhost allHosts r t.
  destruct (disableNMCloudSetup_reboot W s node conn cmd Hos Hcmd Hhost)
    as (He & Hp & Ht & Ho).
  destruct (disableNMCloudSetup_reboot W
              (setRunner {| Conn := ID node |}
                 (setOpenConns (OpenConns s ∪ {[ID node]}) s))
              node (ID node) cmd Hos Hcmd Hhost)
    as (He' & _ & Ht' & Ho').
  repeat split; assumption.
Qed.

Lemma disableNMCloudSetup_discards_error_witness :
  Exec Demo.world [] (EvRunRaw 2 "disable nm-cloud-setup")
    = Some (ErrNew "connection lost")
  /\ (disableNMCloudSetup Demo.world (Demo.fresh 2) Demo.rhel2 2).2 = None
  /\ Trace (disableNMCloudSetup Demo.world (Demo.fresh 2) Demo.rhel2 2).1
     = rebootRound 2 "disable nm-cloud-setup"
  /\ 2 ∉ OpenConns (disableNMCloudSetup Demo.world (Demo.fresh 2) Demo.rhel2 2).1.
Proof.
  destruct (disableNMCloudSetup_discards_error Demo.world (Demo.fresh 2)
              Demo.rhel2 2
              "disable nm-cloud-setup" eq_refl eq_refl)
    as (He & _ & Ht & Ho & _).
  - exists {| Config := Demo.rhel2; Initialized := false |}.
    split; [right; left; reflexivity | split; reflexivity].
  - split; [reflexivity | split; [exact He | split; [exact Ht | exact Ho]]].
Defined.

(** C6. A RHEL host whose live-cluster entries all report Initialized is
    left alone: [disableNMCloudSetup] returns nil with the state as it
    was, so no command was run, nothing was waited for and no connection
    was closed. *)
Theorem disableNMCloudSetup_skips_initialized (W : World) (s : State)
    (node : HostConfig) (conn : Z) :
  OperatingSystem node = OperatingSystemNameRHEL ->
  (forall host,
     In host (ControlPlane (LiveCluster s) ++ StaticWorkers (LiveCluster s)) ->
     ID (Config host) = ID node -> Initialized host = true) ->
  disableNMCloudSetup W s node conn = (s, None).
Proof.
  intros Hos Hall. unfold disableNMCloudSetup. rewrite Hos.
  rewrite bool_decide_eq_true_2 by reflexivity. cbn.
  apply disableNMCloudSetupLoop_idle. now apply pending_nil_iff.
Qed.

Lemma disableNMCloudSetup_skips_initialized_witness :
  disableNMCloudSetup Demo.world (Demo.joined 2) Demo.rhel2 2
  = (Demo.joined 2, None).
Proof.
  apply (disableNMCloudSetup_skips_initialized Demo.world (Demo.joined 2)
           Demo.rhel2 2).
  - reflexivity.
  - apply pending_nil_iff. reflexivity.
Defined.

(** C9. On a host whose operating system is not RHEL, CentOS included,
    [disableNMCloudSetup] returns nil at once and leaves the state as it
    was: no command, no sleep, no closed connection. *)
Theorem disableNMCloudSetup_only_rhel (W : World) (s : State)
    (node : HostConfig) (conn : Z) :
  OperatingSystem node <> OperatingSystemNameRHEL ->
  disableNMCloudSetup W s node conn = (s, None).
Proof.
  intros Hos. unfold disableNMCloudSetup.
  rewrite bool_decide_eq_false_2 by exact Hos. reflexivity.
Qed.

Lemma disableNMCloudSetup_only_rhel_witness :
  OperatingSystem Demo.centos3 = OperatingSystemNameCentOS
  /\ disableNMCloudSetup Demo.world (Demo.fresh 3) Demo.centos3 3
     = (Demo.fresh 3, None).
Proof.
  split; [reflexivity|].
  apply (disableNMCloudSetup_only_rhel Demo.world (Demo.fresh 3)
           Demo.centos3 3).
  discriminate.
Defined.

(** ** Dispatch on the operating system *)

Lemma scriptsRun_app (a b : list Event) :
  scriptsRun (a ++ b) = (scriptsRun a ++ scriptsRun b)%list.
Proof.
  induction a as [|ev a IH]; [reflexivity|].
  destruct ev; cbn; rewrite IH; reflexivity.
Qed.

(** C5. The table of [installKubeadm] is a fixed map with one entry per
    key: RHEL and CentOS select [installKubeadmCentOS], Debian and Ubuntu
    select [installKubeadmDebian]; [installKubeadm] itself runs the
    selected procedure, so on a RHEL or CentOS host it is
    [installKubeadmCentOS] and on a Debian or Ubuntu host it is
    [installKubeadmDebian] (Amazon Linux and Flatcar have their own), and
    what it does depends on the host only through its operating system. *)
Theorem installKubeadm_dispatch (W : World) :
  NoDup (map fst (installKubeadmTable W))
  /\ lookupOS OperatingSystemNameRHEL (installKubeadmTable W)
     = Some (installKubeadmCentOS W)
  /\ lookupOS OperatingSystemNameCentOS (installKubeadmTable W)
     = Some (installKubeadmCentOS W)
  /\ lookupOS OperatingSystemNameDebian (installKubeadmTable W)
     = Some (installKubeadmDebian W)
  /\ lookupOS OperatingSystemNameUbuntu (installKubeadmTable W)
     = Some (installKubeadmDebian W)
  /\ (forall (id1 id2 : Z) (s : State),
        installKubeadm W
          {| ID := id1; OperatingSystem := OperatingSystemNameRHEL |} s
        = installKubeadm W
            {| ID := id2; OperatingSystem := OperatingSystemNameCentOS |} s)
  /\ (forall (id1 id2 : Z) (s : State),
        installKubeadm W
          {| ID := id1; OperatingSystem := OperatingSystemNameDebian |} s
        = installKubeadm W
            {| ID := id2; OperatingSystem := OperatingSystemNameUbuntu |} s)
  /\ (forall (id1 id2 : Z) (os : OperatingSystemName) (s : State),
        installKubeadm W {| ID := id1; OperatingSystem := os |} s
        = installKubeadm W {| ID := id2; OperatingSystem := os |} s)
  /\ (forall (id : Z) (s : State),
        installKubeadm W
          {| ID := id; OperatingSystem := OperatingSystemNameRHEL |} s
        = installKubeadmCentOS W s)
  /\ (forall (id : Z) (s : State),
        installKubeadm W
          {| ID := id; OperatingSystem := OperatingSystemNameCentOS |} s
        = installKubeadmCentOS W s)
  /\ (forall (id : Z) (s : State),
        installKubeadm W
          {| ID := id; OperatingSystem := OperatingSystemNameDebian |} s
        = installKubeadmDebian W s)
  /\ (forall (id : Z) (s : State),
        installKubeadm W
          {| ID := id; OperatingSystem := OperatingSystemNameUbuntu |} s
        = installKubeadmDebian W s)
  /\ (forall (id : Z) (s : State),
        installKubeadm W
          {| ID := id; OperatingSystem := OperatingSystemNameAmazon |} s
        = installKubeadmAmazonLinux W s)
  /\ (forall (id : Z) (s : State),
        installKubeadm W
          {| ID := id; OperatingSystem := OperatingSystemNameFlatcar |} s
        = installKubeadmFlatcar W s).
Proof.
  split.
  { cbn. repeat (constructor;
                 [rewrite ?elem_of_cons, elem_of_nil; intuition discriminate|]).
    constructor. }
  repeat split.
Qed.

Lemma installKubeadmDebian_forceSensitive : forceSensitive installKubeadmDebian.
Proof.
  exists Demo.world, (Demo.fresh 1). cbn. discriminate.
Qed.

(** C8, as stated, fails on Flatcar: whatever the templates and the state,
    the force-reinstall flag cannot change what [installKubeadmFlatcar]
    sends. *)
Lemma installKubeadmFlatcar_not_forceSensitive :
  ~ forceSensitive installKubeadmFlatcar.
Proof.
  intros (W & s & Hneq). apply Hneq.
  unfold installKubeadmFlatcar. cbn.
  destruct (KubeadmFlatcar W (Cluster_ s)); reflexivity.
Qed.

(** C8, amended. The Debian, CentOS and Amazon Linux procedures send the
    script rendered from the cluster and the force-reinstall flag of the
    run context; the Flatcar procedure sends the script rendered from the
    cluster alone, and its scripts and result are the same whatever the
    flag is. *)
Theorem installKubeadm_force_flag (W : World) (s : State) :
  scriptsRun (Trace (installKubeadmDebian W s).1)
  = (scriptsRun (Trace s)
     ++ rendered (KubeadmDebian W (Cluster_ s) (ForceInstall s)))%list
  /\ scriptsRun (Trace (installKubeadmCentOS W s).1)
     = (scriptsRun (Trace s)
        ++ rendered (KubeadmCentOS W (Cluster_ s) (ForceInstall s)))%list
  /\ scriptsRun (Trace (installKubeadmAmazonLinux W s).1)
     = (scriptsRun (Trace s)
        ++ rendered (KubeadmAmazonLinux W (Cluster_ s) (ForceInstall s)))%list
  /\ scriptsRun (Trace (installKubeadmFlatcar W s).1)
     = (scriptsRun (Trace s) ++ rendered (KubeadmFlatcar W (Cluster_ s)))%list
  /\ (forall b : bool,
        scriptsRun (Trace (installKubeadmFlatcar W (setForceInstall b s)).1)
        = scriptsRun (Trace (installKubeadmFlatcar W s).1)
        /\ (installKubeadmFlatcar W (setForceInstall b s)).2
           = (installKubeadmFlatcar W s).2).
Proof.
  unfold installKubeadmDebian, installKubeadmCentOS,
    installKubeadmAmazonLinux, installKubeadmFlatcar.
  repeat split; cbn;
    match goal with
    | |- context [match ?r with Ok _ => _ | Err _ => _ end] => destruct r
    end; cbn; rewrite ?scriptsRun_app, ?app_nil_r; reflexivity.
Qed.

(** ** Proxy setup *)

Ltac scripts_simpl := rewrite ?scriptsRun_app; cbn; rewrite ?app_nil_r.

(** C3, as stated, fails: with the three proxy variables unset,
    [setupProxy] still sends the environment-file script to the host. *)
Lemma setupProxy_runs_script_without_proxy :
  Proxy (Cluster_ (Demo.fresh 1)) = {| HTTP := ""; HTTPS := ""; NoProxy := "" |}
  /\ scriptsRun
       (Trace (setupProxy Demo.world (Some OperatingSystemNameDebian)
                 (Demo.fresh 1)).1)
     = ["write /etc/kubeone/proxy-env"]
  /\ scriptsRun (Trace (Demo.fresh 1)) = [].
Proof.
  repeat split.
Qed.

(** C3, amended. With the three proxy variables unset, only the service
    drop-in is skipped: [containerRuntimeEnvironment] returns nil and
    leaves the state as it was, while [setupProxy] still sends the
    environment-file script (and nothing else) whenever it renders, and
    succeeds exactly when that step does. *)
Theorem setupProxy_unset_proxy (W : World)
    (logger : option OperatingSystemName) (s : State) :
  HTTP (Proxy (Cluster_ s)) = "" ->
  HTTPS (Proxy (Cluster_ s)) = "" ->
  NoProxy (Proxy (Cluster_ s)) = "" ->
  containerRuntimeEnvironment W s = (s, None)
  /\ scriptsRun (Trace (setupProxy W logger s).1)
     = (scriptsRun (Trace s) ++ rendered (EnvironmentFile W (Cluster_ s)))%list
  /\ (setupProxy W logger s).2
     = errors.Wrap
         (createEnvironmentFile W
            (Logger.EntryInfoln logger "Creating environment file..." s)).2
         "failed to create environment file".
Proof.
  intros Hhttp Hhttps Hno.
  assert (Hskip : forall s', Cluster_ s' = Cluster_ s ->
                             containerRuntimeEnvironment W s' = (s', None)).
  { intros s' Hc. unfold containerRuntimeEnvironment.
    rewrite Hc, Hhttp, Hhttps, Hno. reflexivity. }
  split; [now apply Hskip|].
  unfold setupProxy, createEnvironmentFile. cbn.
  destruct (EnvironmentFile W (Cluster_ s)) as [cmd|err]; cbn.
  - destruct (Exec W _ _); cbn.
    + scripts_simpl. split; reflexivity.
    + rewrite Hskip by reflexivity. cbn.
      scripts_simpl. split; reflexivity.
  - scripts_simpl. split; reflexivity.
Qed.

Lemma setupProxy_unset_proxy_witness :
  containerRuntimeEnvironment Demo.world (Demo.fresh 1) = (Demo.fresh 1, None)
  /\ scriptsRun
       (Trace (setupProxy Demo.world (Some OperatingSystemNameDebian)
                 (Demo.fresh 1)).1)
     = ["write /etc/kubeone/proxy-env"]
  /\ (setupProxy Demo.world (Some OperatingSystemNameDebian) (Demo.fresh 1)).2
     = None.
Proof.
  exact (setupProxy_unset_proxy Demo.world (Some OperatingSystemNameDebian)
           (Demo.fresh 1) eq_refl eq_refl eq_refl).
Defined.

(** ** The configuration bundle *)

Lemma cfg_path_inj (a b : string) : "cfg/" +:+ a = "cfg/" +:+ b -> a = b.
Proof. cbn. intros H. now injection H. Qed.

Section Bundle.

Variable W : World.

Lemma onlyBundle_refl (s : State) : onlyBundle s s.
Proof. unfold onlyBundle. now destruct s. Qed.

Lemma onlyBundle_AddFile (s s' : State) (p c : string) :
  onlyBundle s s' -> onlyBundle s (AddFile p c s').
Proof. unfold onlyBundle. intros ->. reflexivity. Qed.

Lemma onlyBundle_Cluster (s s' : State) :
  onlyBundle s s' -> Cluster_ s' = Cluster_ s /\ LiveCluster s' = LiveCluster s.
Proof. unfold onlyBundle. intros ->. split; reflexivity. Qed.

Lemma addAuditPolicy_spec (s0 s : State) :
  onlyBundle s0 s ->
  onlyBundle s0 (addAuditPolicy W s).1
  /\ match (addAuditPolicy W s).2 with
     | None =>
         if staticAuditLogEnabled (Cluster_ s)
         then exists c, Configuration (addAuditPolicy W s).1
                        = <["cfg/audit-policy.yaml" := c]> (Configuration s)
         else Configuration (addAuditPolicy W s).1 = Configuration s
     | Some _ => Configuration (addAuditPolicy W s).1 = Configuration s
     end.
Proof.
  intros Hs. unfold addAuditPolicy, staticAuditLogEnabled, AddFilePath.
  destruct (StaticAuditLog_ (Features_ (Cluster_ s))) as [sal|]; [|now split].
  destruct (StaticAuditLog.Enable sal); [|now split].
  destruct (ReadFile W _ _) as [c|e]; cbn; [|now split].
  split; [now apply onlyBundle_AddFile|]. now exists c.
Qed.

Lemma addAdmissionConfig_spec (s0 s : State) :
  onlyBundle s0 s ->
  onlyBundle s0 (addAdmissionConfig W s).1
  /\ match (addAdmissionConfig W s).2 with
     | None =>
         if podNodeSelectorEnabled (Cluster_ s)
         then exists a c, Configuration (addAdmissionConfig W s).1
                          = <["cfg/podnodeselector.yaml" := c]>
                              (<["cfg/admission-config.yaml" := a]>
                                 (Configuration s))
         else Configuration (addAdmissionConfig W s).1 = Configuration s
     | Some _ =>
         Configuration (addAdmissionConfig W s).1 = Configuration s
         \/ exists a, Configuration (addAdmissionConfig W s).1
                      = <["cfg/admission-config.yaml" := a]> (Configuration s)
     end.
Proof.
  intros Hs. unfold addAdmissionConfig, podNodeSelectorEnabled, AddFilePath.
  destruct (PodNodeSelector_ (Features_ (Cluster_ s))) as [pns|]; [|now split].
  destruct (PodNodeSelector.Enable pns); [|now split].
  destruct (NewAdmissionConfig W _ _) as [a|e]; cbn; [|split; [easy|now left]].
  destruct (ReadFile W _ _) as [c|e]; cbn.
  - split; [now do 2 apply onlyBundle_AddFile|]. now exists a, c.
  - split; [now apply onlyBundle_AddFile|]. right. now exists a.
Qed.

Lemma addEncryptionProviders_spec (s0 s : State) :
  onlyBundle s0 s ->
  onlyBundle s0 (addEncryptionProviders W s).1
  /\ match (addEncryptionProviders W s).2 with
     | None =>
         Configuration (addEncryptionProviders W s).1 = Configuration s
         \/ exists c, Configuration (addEncryptionProviders W s).1
              = <["cfg/" +:+ GetEncryptionProviderConfigName W (Cluster_ s)
                               (LiveCluster s) := c]> (Configuration s)
     | Some _ => (addEncryptionProviders W s).1 = s
     end.
Proof.
  intros Hs. unfold addEncryptionProviders.
  destruct (_ || _); [|split; [easy|now left]].
  destruct (negb _).
  { cbn. split; [now apply onlyBundle_AddFile|]. right. eauto. }
  destruct (ShouldEnableEncryption W _ _); [|split; [easy|now left]].
  destruct (NewEncyrptionProvidersConfig W s) as [o|e]; [|now split].
  destruct (KubernetesToYAML W [o]) as [c|e]; [|now split].
  cbn. split; [now apply onlyBundle_AddFile|]. right. eauto.
Qed.

End Bundle.

Ltac bundle_lookup :=
  repeat first
    [ rewrite lookup_insert_eq
    | rewrite lookup_insert_ne by first [discriminate | assumption] ].

Ltac is_Some_solve :=
  repeat split; intros;
  repeat match goal with
         | H : _ /\ _ |- _ => destruct H
         | H : is_Some None |- _ => destruct (is_Some_None H)
         end;
  first [discriminate | reflexivity | eexists; reflexivity].

(** C4. When generation succeeds on a bundle that holds none of the three
    conditional paths at entry, with an encryption-provider file name that
    is none of the three conditional file names, the resulting bundle has
    the cloud-config entry, has the audit-policy entry exactly when static
    audit logging is enabled, and has both the admission-config and the
    podnodeselector entries exactly when the pod-node-selector feature is
    enabled. *)
Theorem generateConfigurationFiles_entries (W : World) (s s' : State) :
  generateConfigurationFiles W s = (s', None) ->
  Configuration s !! "cfg/audit-policy.yaml" = None ->
  Configuration s !! "cfg/admission-config.yaml" = None ->
  Configuration s !! "cfg/podnodeselector.yaml" = None ->
  GetEncryptionProviderConfigName W (Cluster_ s) (LiveCluster s)
    ∉ ["audit-policy.yaml"; "admission-config.yaml"; "podnodeselector.yaml"] ->
  is_Some (Configuration s' !! "cfg/cloud-config")
  /\ (is_Some (Configuration s' !! "cfg/audit-policy.yaml")
      <-> staticAuditLogEnabled (Cluster_ s) = true)
  /\ (is_Some (Configuration s' !! "cfg/admission-config.yaml")
      /\ is_Some (Configuration s' !! "cfg/podnodeselector.yaml")
      <-> podNodeSelectorEnabled (Cluster_ s) = true).
Proof.
  intros Hrun Ha Hb Hc Hname.
  unfold generateConfigurationFiles in Hrun.
  destruct (addAuditPolicy_spec W s
              (AddFile "cfg/cloud-config"
                 (CloudProviderCloudConfig (Cluster_ s)) s)
              (onlyBundle_AddFile _ _ _ _ (onlyBundle_refl s))) as [Hb1 Hc1].
  destruct (addAuditPolicy W _) as [s1 [e1|]]; [discriminate|]. cbn in *.
  destruct (addAdmissionConfig_spec W s s1 Hb1) as [Hb2 Hc2].
  destruct (addAdmissionConfig W s1) as [s2 [e2|]]; [discriminate|]. cbn in *.
  destruct (addEncryptionProviders_spec W s s2 Hb2) as [_ Hc3].
  rewrite Hrun in Hc3. cbn in Hc3.
  destruct (onlyBundle_Cluster _ _ Hb1) as [Hk1 _].
  destruct (onlyBundle_Cluster _ _ Hb2) as [Hk2 Hl2].
  rewrite Hk1 in Hc2. rewrite Hk2, Hl2 in Hc3.
  set (name := GetEncryptionProviderConfigName W (Cluster_ s) (LiveCluster s))
    in *.
  assert (Hn : forall x,
             x ∈ ["audit-policy.yaml"; "admission-config.yaml";
                  "podnodeselector.yaml"] ->
             "cfg/" +:+ name <> "cfg/" +:+ x).
  { intros x Hx E. apply cfg_path_inj in E. congruence. }
  pose proof (Hn "audit-policy.yaml" ltac:(repeat constructor)) as Hn1.
  pose proof (Hn "admission-config.yaml" ltac:(repeat constructor)) as Hn2.
  pose proof (Hn "podnodeselector.yaml" ltac:(repeat constructor)) as Hn3.
  assert (Hcloud : is_Some (Configuration s' !! "cfg/cloud-config")).
  { destruct (decide ("cfg/" +:+ name = "cfg/cloud-config")) as [E|E];
      destruct Hc3 as [-> | [c ->]];
      destruct (staticAuditLogEnabled _); destruct (podNodeSelectorEnabled _);
      repeat match goal with
             | H : exists _, _ |- _ => destruct H
             | H : Configuration _ = _ |- _ => rewrite H; clear H
             end;
      try rewrite E; bundle_lookup; eexists; reflexivity. }
  split; [exact Hcloud|].
  destruct Hc3 as [-> | [c ->]];
    destruct (staticAuditLogEnabled _); destruct (podNodeSelectorEnabled _);
    repeat match goal with
           | H : exists _, _ |- _ => destruct H
           | H : Configuration _ = _ |- _ => rewrite H; clear H
           end;
    bundle_lookup; rewrite ?Ha, ?Hb, ?Hc; is_Some_solve.
Qed.

Lemma generateConfigurationFiles_entries_witness :
  is_Some (Configuration
             (generateConfigurationFiles Demo.world
                (Demo.state Demo.allFeatures Demo.live 1)).1
           !! "cfg/cloud-config")
  /\ (is_Some (Configuration
                 (generateConfigurationFiles Demo.world
                    (Demo.state Demo.allFeatures Demo.live 1)).1
               !! "cfg/audit-policy.yaml")
      <-> staticAuditLogEnabled (Demo.cluster Demo.allFeatures) = true)
  /\ (is_Some (Configuration
                 (generateConfigurationFiles Demo.world
                    (Demo.state Demo.allFeatures Demo.live 1)).1
               !! "cfg/admission-config.yaml")
      /\ is_Some (Configuration
                    (generateConfigurationFiles Demo.world
                       (Demo.state Demo.allFeatures Demo.live 1)).1
                  !! "cfg/podnodeselector.yaml")
      <-> podNodeSelectorEnabled (Demo.cluster Demo.allFeatures) = true).
Proof.
  apply (generateConfigurationFiles_entries Demo.world
           (Demo.state Demo.allFeatures Demo.live 1)).
  - reflexivity.
  - reflexivity.
  - reflexivity.
  - reflexivity.
  - rewrite !elem_of_cons, elem_of_nil. cbn. intuition discriminate.
Defined.

(** C7, as stated, fails: with static audit logging on and a policy file
    that cannot be read, generation returns an error and the bundle, empty
    at entry, holds the cloud-config entry. *)
Lemma generateConfigurationFiles_failure_not_atomic :
  (generateConfigurationFiles Demo.world
     (Demo.state Demo.auditFeatures Demo.live 1)).2
  = Some (ErrWrap (ErrNew "no such file") "unable to add policy file")
  /\ Configuration (Demo.state Demo.auditFeatures Demo.live 1) = ∅
  /\ Configuration
       (generateConfigurationFiles Demo.world
          (Demo.state Demo.auditFeatures Demo.live 1)).1
     <> Configuration (Demo.state Demo.auditFeatures Demo.live 1).
Proof.
  split; [reflexivity|]. split; [reflexivity|].
  intros E.
  apply (f_equal (fun m : gmap string string => m !! "cfg/cloud-config")) in E.
  cbn in E. rewrite lookup_insert_eq, lookup_empty in E. discriminate.
Qed.

(** C7, amended. Generation stops at the failing step without undoing
    what it added before: when it returns an error, the bundle holds the
    cloud-config entry written at the start, and only the entries under
    the four fixed bundle paths can differ from the bundle at entry. *)
Theorem generateConfigurationFiles_failure_keeps_entries (W : World)
    (s s' : State) (e : error) :
  generateConfigurationFiles W s = (s', Some e) ->
  Configuration s' !! "cfg/cloud-config"
  = Some (CloudProviderCloudConfig (Cluster_ s))
  /\ (forall p : string,
        p ∉ ["cfg/cloud-config"; "cfg/audit-policy.yaml";
             "cfg/admission-config.yaml"; "cfg/podnodeselector.yaml"] ->
        Configuration s' !! p = Configuration s !! p).
Proof.
  intros Hrun.
  unfold generateConfigurationFiles in Hrun.
  destruct (addAuditPolicy_spec W s
              (AddFile "cfg/cloud-config"
                 (CloudProviderCloudConfig (Cluster_ s)) s)
              (onlyBundle_AddFile _ _ _ _ (onlyBundle_refl s))) as [Hb1 Hc1].
  destruct (addAuditPolicy W _) as [s1 r1]. cbn in Hc1.
  assert (H1 : Configuration s1 !! "cfg/cloud-config"
               = Some (CloudProviderCloudConfig (Cluster_ s))
               /\ forall p : string,
                    p ∉ ["cfg/cloud-config"; "cfg/audit-policy.yaml";
                         "cfg/admission-config.yaml";
                         "cfg/podnodeselector.yaml"] ->
                    Configuration s1 !! p = Configuration s !! p).
  { assert (Hfr : forall p : string,
               p ∉ ["cfg/cloud-config"; "cfg/audit-policy.yaml";
                    "cfg/admission-config.yaml"; "cfg/podnodeselector.yaml"] ->
               p <> "cfg/cloud-config" /\ p <> "cfg/audit-policy.yaml").
    { intros p Hp. split; intros ->; apply Hp; repeat constructor. }
    destruct r1 as [e1|]; [|destruct (staticAuditLogEnabled _);
                             [destruct Hc1 as [c Hc1]|]];
      rewrite Hc1; cbn; bundle_lookup; (split; [reflexivity|]);
      intros p Hp; destruct (Hfr p Hp); now rewrite !lookup_insert_ne. }
  destruct r1 as [e1|]; [now inversion Hrun; subst|].
  destruct (addAdmissionConfig_spec W s s1 Hb1) as [Hb2 Hc2].
  destruct (addAdmissionConfig W s1) as [s2 r2]. cbn in Hc2.
  destruct H1 as [Hcc Hframe].
  assert (H2 : Configuration s2 !! "cfg/cloud-config"
               = Some (CloudProviderCloudConfig (Cluster_ s))
               /\ forall p : string,
                    p ∉ ["cfg/cloud-config"; "cfg/audit-policy.yaml";
                         "cfg/admission-config.yaml";
                         "cfg/podnodeselector.yaml"] ->
                    Configuration s2 !! p = Configuration s !! p).
  { assert (Hfr : forall p : string,
               p ∉ ["cfg/cloud-config"; "cfg/audit-policy.yaml";
                    "cfg/admission-config.yaml"; "cfg/podnodeselector.yaml"] ->
               p <> "cfg/admission-config.yaml"
               /\ p <> "cfg/podnodeselector.yaml").
    { intros p Hp. split; intros ->; apply Hp; repeat constructor. }
    destruct r2 as [e2|];
      [destruct Hc2 as [Hc2|[a Hc2]]
      |destruct (podNodeSelectorEnabled _); [destruct Hc2 as (a & c & Hc2)|]];
      rewrite Hc2; bundle_lookup; (split; [exact Hcc|]);
      intros p Hp; destruct (Hfr p Hp);
      rewrite ?lookup_insert_ne by (intros E; now symmetry in E);
      now apply Hframe. }
  destruct r2 as [e2|]; [now inversion Hrun; subst|].
  destruct (addEncryptionProviders_spec W s s2 Hb2) as [_ Hc3].
  rewrite Hrun in Hc3. cbn in Hc3. now subst s'.
Qed.

Lemma generateConfigurationFiles_failure_keeps_entries_witness :
  Configuration
    (generateConfigurationFiles Demo.world
       (Demo.state Demo.auditFeatures Demo.live 1)).1
  !! "cfg/cloud-config" = Some "[global]"
  /\ (forall p : string,
        p ∉ ["cfg/cloud-config"; "cfg/audit-policy.yaml";
             "cfg/admission-config.yaml"; "cfg/podnodeselector.yaml"] ->
        Configuration
          (generateConfigurationFiles Demo.world
             (Demo.state Demo.auditFeatures Demo.live 1)).1 !! p
        = Configuration (Demo.state Demo.auditFeatures Demo.live 1) !! p).
Proof.
  apply (generateConfigurationFiles_failure_keeps_entries Demo.world
           (Demo.state Demo.auditFeatures Demo.live 1) _
           (ErrWrap (ErrNew "no such file") "unable to add policy file")).
  reflexivity.
Defined.

(** C10. When encryption at rest is already enabled, no fresh
    configuration is to be generated and no custom one is supplied, the
    encryption block adds nothing and returns nil: generation returns
    success with the state the audit-policy and admission steps left. *)
Theorem generateConfigurationFiles_encryption_already_enabled (W : World)
    (s s1 s2 : State) :
  EncryptionEnabled W (Cluster_ s) (LiveCluster s) = true ->
  ShouldEnableEncryption W (Cluster_ s) (LiveCluster s) = false ->
  CustomEncryptionConfiguration
    (EncryptionProviders_ (Features_ (Cluster_ s))) = "" ->
  addAuditPolicy W
    (AddFile "cfg/cloud-config" (CloudProviderCloudConfig (Cluster_ s)) s)
  = (s1, None) ->
  addAdmissionConfig W s1 = (s2, None) ->
  generateConfigurationFiles W s = (s2, None)
  /\ addEncryptionProviders W s2 = (s2, None).
Proof.
  intros Hen Hsh Hcu H1 H2.
  assert (Hb2 : onlyBundle s s2).
  { pose proof (addAuditPolicy_spec W s
                  (AddFile "cfg/cloud-config"
                     (CloudProviderCloudConfig (Cluster_ s)) s)
                  (onlyBundle_AddFile _ _ _ _ (onlyBundle_refl s))) as [Hb1 _].
    rewrite H1 in Hb1.
    pose proof (addAdmissionConfig_spec W s s1 Hb1) as [Hb2 _].
    now rewrite H2 in Hb2. }
  destruct (onlyBundle_Cluster _ _ Hb2) as [Hk Hl].
  assert (Henc : addEncryptionProviders W s2 = (s2, None)).
  { unfold addEncryptionProviders. rewrite Hk, Hl, Hen, Hsh, Hcu. reflexivity. }
  split; [|exact Henc].
  unfold generateConfigurationFiles. rewrite H1, H2. exact Henc.
Qed.

Lemma generateConfigurationFiles_encryption_already_enabled_witness :
  generateConfigurationFiles Demo.world (Demo.fresh 1)
  = (AddFile "cfg/cloud-config" "[global]" (Demo.fresh 1), None)
  /\ addEncryptionProviders Demo.world
       (AddFile "cfg/cloud-config" "[global]" (Demo.fresh 1))
     = (AddFile "cfg/cloud-config" "[global]" (Demo.fresh 1), None).
Proof.
  apply (generateConfigurationFiles_encryption_already_enabled Demo.world
           (Demo.fresh 1)
           (AddFile "cfg/cloud-config" "[global]" (Demo.fresh 1))
           (AddFile "cfg/cloud-config" "[global]" (Demo.fresh 1)));
    reflexivity.
Defined.

(** ** The order of the prerequisite steps *)

Section Order.

Variable P : Event -> Prop.

Lemma grows_refl (s : State) : grows P s s.
Proof. exists []. now rewrite app_nil_r. Qed.

Lemma grows_trans (s1 s2 s3 : State) :
  grows P s1 s2 -> grows P s2 s3 -> grows P s1 s3.
Proof.
  intros (e1 & H1 & F1) (e2 & H2 & F2). exists (e1 ++ e2)%list.
  split; [now rewrite H2, H1, app_assoc|now apply Forall_app].
Qed.

Lemma grows_emit (s s' : State) (ev : Event) :
  grows P s s' -> P ev -> grows P s (emit ev s').
Proof.
  intros H Hev. apply (grows_trans _ s'); [exact H|].
  exists [ev]. split; [reflexivity|]. now constructor.
Qed.

Lemma grows_same_trace (s s1 s' : State) :
  Trace s1 = Trace s -> grows P s1 s' -> grows P s s'.
Proof. intros E (evs & H & F). exists evs. now rewrite <- E. Qed.

Lemma runConcurrent_grows (task : NodeTask) :
  (forall s node conn, grows P s (task s node conn).1) ->
  forall hosts s, grows P s (runConcurrent task hosts s).1.
Proof.
  intros Htask. induction hosts as [|node rest IH]; intros s; cbn.
  - apply grows_refl.
  - unfold runOnNode.
    match goal with
    | |- context [task ?s1 node (ID node)] =>
        pose proof (Htask s1 node (ID node)) as H1;
        destruct (task s1 node (ID node)) as [s2 r]
    end.
    pose proof (IH s2) as H2.
    destruct (runConcurrent task rest s2) as [s3 failed]. cbn in *.
    apply (grows_trans _ s2); [|exact H2].
    eapply grows_same_trace; [|exact H1]. reflexivity.
Qed.

Lemma RunTaskOnAllNodes_parallel_grows (task : NodeTask) :
  (forall s node conn, grows P s (task s node conn).1) ->
  forall s, grows P s (RunTaskOnAllNodes task RunParallel s).1.
Proof.
  intros Htask s. unfold RunTaskOnAllNodes.
  pose proof (runConcurrent_grows task Htask (Hosts (Cluster_ s)) s) as H.
  now destruct (runConcurrent task (Hosts (Cluster_ s)) s).
Qed.

End Order.

Ltac grows_emits :=
  repeat (apply grows_emit; [|reflexivity]); apply grows_refl.

Ltac grows_cases :=
  cbn;
  repeat match goal with
         | |- context [match ?x with _ => _ end] =>
             lazymatch x with
             | context [match _ with _ => _ end] => fail
             | _ => destruct x; cbn
             end
         end;
  grows_emits.

Lemma installPrerequisitesOnNode_grows (W : World) (s : State)
    (node : HostConfig) (conn : Z) :
  grows (fun ev => isPrePull ev = false) s
    (installPrerequisitesOnNode W s node conn).1.
Proof.
  unfold installPrerequisitesOnNode, setupProxy, createEnvironmentFile,
    containerRuntimeEnvironment, installKubeadm, runOnOS, RunRaw.
  destruct (OperatingSystem node); cbn;
    unfold installKubeadmAmazonLinux, installKubeadmCentOS,
      installKubeadmDebian, installKubeadmFlatcar, RunRaw;
    grows_cases.
Qed.

Lemma prePullImages_grows (W : World) (s : State) (node : HostConfig)
    (conn : Z) :
  grows (fun ev => isNodeSetup ev = false) s (prePullImages W s node conn).1.
Proof. unfold prePullImages, Run. grows_cases. Qed.

Lemma nodeSetupFirst_app (setup pull : list Event) :
  Forall (fun ev => isPrePull ev = false) setup ->
  Forall (fun ev => isNodeSetup ev = false) pull ->
  nodeSetupFirst (setup ++ pull).
Proof.
  intros Hs Hp i j a b Hi Hj Ha Hb.
  destruct (decide (i < length setup)%nat) as [Hlt|Hge].
  - destruct (decide (j < length setup)%nat) as [Hjlt|Hjge]; [|lia].
    rewrite lookup_app_l in Hj by exact Hjlt.
    pose proof (Forall_lookup_1 _ _ _ _ Hs Hj) as Hc. cbn in Hc. congruence.
  - rewrite lookup_app_r in Hi by lia.
    pose proof (Forall_lookup_1 _ _ _ _ Hp Hi) as Hc. cbn in Hc. congruence.
Qed.

(** C1, as stated, fails: on the three-host fleet the pre-pull of host 1
    is the event at position 17 of the run, after the environment-file
    script of the same host at position 2. *)
Lemma installPrerequisites_prePull_not_first :
  ~ prePullFirst (Trace (installPrerequisites Demo.world (Demo.fresh 1)).1).
Proof.
  intros H.
  specialize (H 17%nat 2%nat
                (EvRun 1 prePullTemplate [("KUBERNETES_VERSION", "1.24.3")])
                (EvRunRaw 1 "write /etc/kubeone/proxy-env")
                eq_refl eq_refl eq_refl eq_refl).
  lia.
Qed.

(** C1, amended. [installPrerequisites] first runs the per-node task
    (proxy setup, then kubeadm installation) on all hosts and only then the
    image pre-pull: what it appends to the trace is a block without any
    pre-pull command followed by a block without any setup script, so every
    setup script comes before every pre-pull; when the per-node task fails
    on some host, the pre-pull block is empty and the aggregate error is
    returned wrapped. *)
Theorem installPrerequisites_order (W : World) (s : State) :
  exists setup pull : list Event,
    Trace (installPrerequisites W s).1 = (Trace s ++ setup ++ pull)%list
    /\ Forall (fun ev => isPrePull ev = false) setup
    /\ Forall (fun ev => isNodeSetup ev = false) pull
    /\ nodeSetupFirst (setup ++ pull)
    /\ match (RunTaskOnAllNodes (installPrerequisitesOnNode W) RunParallel
                (Logger.Infoln "Installing prerequisites..." s)).2 with
       | Some err =>
           pull = []
           /\ (installPrerequisites W s).2
              = Some (ErrWrap err "failed to install prerequisites")
       | None => True
       end.
Proof.
  unfold installPrerequisites.
  pose proof (RunTaskOnAllNodes_parallel_grows
                (fun ev => isPrePull ev = false)
                (installPrerequisitesOnNode W)
                (installPrerequisitesOnNode_grows W)
                (Logger.Infoln "Installing prerequisites..." s)) as H1.
  destruct (RunTaskOnAllNodes (installPrerequisitesOnNode W) RunParallel
              (Logger.Infoln "Installing prerequisites..." s)) as [s1 r1].
  cbn in H1. cbv beta iota.
  destruct H1 as (e1 & Ht1 & Hf1).
  assert (Hsetup : Forall (fun ev => isPrePull ev = false)
                     (EvLog None "Installing prerequisites..." :: e1)).
  { now constructor. }
  destruct r1 as [err|]; cbn [fst snd].
  - exists (EvLog None "Installing prerequisites..." :: e1), [].
    split; [rewrite Ht1; cbn; now rewrite app_nil_r, <- app_assoc|].
    repeat split; [exact Hsetup|constructor|].
    apply nodeSetupFirst_app; [exact Hsetup|constructor].
  - pose proof (RunTaskOnAllNodes_parallel_grows
                  (fun ev => isNodeSetup ev = false)
                  (prePullImages W) (prePullImages_grows W) s1)
      as (e2 & Ht2 & Hf2).
    exists (EvLog None "Installing prerequisites..." :: e1), e2.
    split; [rewrite Ht2, Ht1; cbn; now rewrite <- !app_assoc|].
    repeat split; [exact Hsetup|exact Hf2|].
    now apply nodeSetupFirst_app.
Qed.

(** * Further properties *)

(** ** The reboot handling, when the script does not render *)

Lemma disableNMCloudSetupLoop_render_error (W : World) (node : HostConfig)
    (e : error) :
  DisableNMCloudSetup W = Err e ->
  forall (allHosts : list Host) (s : State),
    pending node allHosts <> [] ->
    disableNMCloudSetupLoop W node allHosts s = (s, Some e).
Proof.
  intros Hr. induction allHosts as [|host rest IH]; intros s Hp; cbn in *.
  - congruence.
  - destruct ((ID node =? ID (Config host)) && negb (Initialized host)).
    + now rewrite Hr.
    + now apply IH.
Qed.

(** X1. Unlike the error of executing the script, the error of rendering
    it is returned: on a RHEL node with an entry that is not initialized,
    [disableNMCloudSetup] returns the rendering error and has done nothing
    (no command, no wait, no closed connection). *)
Theorem disableNMCloudSetup_render_error (W : World) (s : State)
    (node : HostConfig) (conn : Z) (e : error) :
  OperatingSystem node = OperatingSystemNameRHEL ->
  DisableNMCloudSetup W = Err e ->
  (exists host,
     In host (ControlPlane (LiveCluster s) ++ StaticWorkers (LiveCluster s))
     /\ ID (Config host) = ID node /\ Initialized host = false) ->
  disableNMCloudSetup W s node conn = (s, Some e).
Proof.
  intros Hos Hr (host & Hin & Hid & Hinit).
  unfold disableNMCloudSetup. rewrite Hos.
  rewrite bool_decide_eq_true_2 by reflexivity. cbn.
  apply disableNMCloudSetupLoop_render_error; [exact Hr|].
  intros Hnil. rewrite pending_nil_iff in Hnil.
  specialize (Hnil host Hin Hid). congruence.
Qed.

Lemma disableNMCloudSetup_render_error_witness :
  disableNMCloudSetup Demo2.brokenTemplate (Demo.fresh 2) Demo.rhel2 2
  = (Demo.fresh 2, Some (ErrNew "template: bad syntax")).
Proof.
  apply (disableNMCloudSetup_render_error Demo2.brokenTemplate (Demo.fresh 2)
           Demo.rhel2 2 (ErrNew "template: bad syntax") eq_refl eq_refl).
  exists {| Config := Demo.rhel2; Initialized := false |}.
  split; [right; left; reflexivity | split; reflexivity].
Defined.

(** ** Generation touches the bundle only *)

Lemma generateConfigurationFiles_onlyBundle (W : World) (s : State) :
  onlyBundle s (generateConfigurationFiles W s).1.
Proof.
  unfold generateConfigurationFiles.
  destruct (addAuditPolicy_spec W s
              (AddFile "cfg/cloud-config"
                 (CloudProviderCloudConfig (Cluster_ s)) s)
              (onlyBundle_AddFile _ _ _ _ (onlyBundle_refl s))) as [Hb1 _].
  destruct (addAuditPolicy W _) as [s1 [e1|]]; [exact Hb1|]. cbn in Hb1.
  destruct (addAdmissionConfig_spec W s s1 Hb1) as [Hb2 _].
  destruct (addAdmissionConfig W s1) as [s2 [e2|]]; [exact Hb2|]. cbn in Hb2.
  destruct (addEncryptionProviders_spec W s s2 Hb2) as [Hb3 _]. exact Hb3.
Qed.

(** X2. [generateConfigurationFiles] works on the bundle alone: whatever
    the features and whether it fails or not, it sends no command, writes
    no log line, and leaves the connections, the runner, the cluster
    specification and the live cluster as they were. *)
Theorem generateConfigurationFiles_no_remote_effect (W : World) (s : State) :
  Trace (generateConfigurationFiles W s).1 = Trace s
  /\ OpenConns (generateConfigurationFiles W s).1 = OpenConns s
  /\ Runner_ (generateConfigurationFiles W s).1 = Runner_ s
  /\ Cluster_ (generateConfigurationFiles W s).1 = Cluster_ s
  /\ LiveCluster (generateConfigurationFiles W s).1 = LiveCluster s
  /\ ForceInstall (generateConfigurationFiles W s).1 = ForceInstall s.
Proof.
  pose proof (generateConfigurationFiles_onlyBundle W s) as H.
  unfold onlyBundle in H. rewrite H. repeat split.
Qed.

(** ** The content of the entries *)

(** X3. A custom encryption configuration wins: when encryption is enabled
    or to be enabled and a custom configuration is supplied, then, the
    audit-policy and admission steps having succeeded, generation succeeds
    and the entry under the encryption-provider name holds the custom
    configuration verbatim; nothing is synthesized. *)
Theorem generateConfigurationFiles_custom_encryption (W : World)
    (s s1 s2 : State) :
  ShouldEnableEncryption W (Cluster_ s) (LiveCluster s)
  || EncryptionEnabled W (Cluster_ s) (LiveCluster s) = true ->
  CustomEncryptionConfiguration
    (EncryptionProviders_ (Features_ (Cluster_ s))) <> "" ->
  addAuditPolicy W
    (AddFile "cfg/cloud-config" (CloudProviderCloudConfig (Cluster_ s)) s)
  = (s1, None) ->
  addAdmissionConfig W s1 = (s2, None) ->
  (generateConfigurationFiles W s).2 = None
  /\ Configuration (generateConfigurationFiles W s).1
     = <["cfg/" +:+ GetEncryptionProviderConfigName W (Cluster_ s)
                      (LiveCluster s)
         := CustomEncryptionConfiguration
              (EncryptionProviders_ (Features_ (Cluster_ s)))]>
         (Configuration s2)
  /\ Configuration (generateConfigurationFiles W s).1
     !! ("cfg/" +:+ GetEncryptionProviderConfigName W (Cluster_ s)
                      (LiveCluster s))
     = Some (CustomEncryptionConfiguration
               (EncryptionProviders_ (Features_ (Cluster_ s)))).
Proof.
  intros Hon Hcu H1 H2.
  assert (Hb2 : onlyBundle s s2).
  { pose proof (addAuditPolicy_spec W s
                  (AddFile "cfg/cloud-config"
                     (CloudProviderCloudConfig (Cluster_ s)) s)
                  (onlyBundle_AddFile _ _ _ _ (onlyBundle_refl s))) as [Hb1 _].
    rewrite H1 in Hb1.
    pose proof (addAdmissionConfig_spec W s s1 Hb1) as [Hb2 _].
    now rewrite H2 in Hb2. }
  destruct (onlyBundle_Cluster _ _ Hb2) as [Hk Hl].
  unfold generateConfigurationFiles. rewrite H1, H2.
  unfold addEncryptionProviders. rewrite Hk, Hl, Hon.
  apply String.eqb_neq in Hcu. rewrite Hcu. cbn.
  repeat split. apply lookup_insert_eq.
Qed.

Lemma generateConfigurationFiles_custom_encryption_witness :
  (generateConfigurationFiles Demo.world
     (Demo.state Demo2.customFeatures Demo.live 1)).2 = None
  /\ Configuration
       (generateConfigurationFiles Demo.world
          (Demo.state Demo2.customFeatures Demo.live 1)).1
     !! "cfg/encryption-providers.yaml"
     = Some "kind: EncryptionConfiguration".
Proof.
  destruct (generateConfigurationFiles_custom_encryption Demo.world
              (Demo.state Demo2.customFeatures Demo.live 1)
              (AddFile "cfg/cloud-config" "[global]"
                 (Demo.state Demo2.customFeatures Demo.live 1))
              (AddFile "cfg/cloud-config" "[global]"
                 (Demo.state Demo2.customFeatures Demo.live 1))
              eq_refl ltac:(discriminate) eq_refl eq_refl)
    as (He & _ & Hl).
  split; [exact He|exact Hl].
Defined.

Ltac split_hyp H :=
  repeat match type of H with
         | context [match ?x with _ => _ end] =>
             lazymatch x with
             | context [match _ with _ => _ end] => fail
             | _ => destruct x eqn:?; cbn in H; try discriminate H
             end
         end.

(** X4. The entries hold what they were made from: after a successful
    generation (the encryption-provider file name being none of the four
    fixed file names) the cloud-config entry is the cloud provider
    configuration of the cluster, the audit-policy entry is the content
    read at the configured policy path, the admission-config entry is the
    synthesized admission configuration and the podnodeselector entry is
    the content read at the configured selector path. *)
Theorem generateConfigurationFiles_contents (W : World) (s s' : State) :
  generateConfigurationFiles W s = (s', None) ->
  GetEncryptionProviderConfigName W (Cluster_ s) (LiveCluster s)
    ∉ ["cloud-config"; "audit-policy.yaml"; "admission-config.yaml";
       "podnodeselector.yaml"] ->
  Configuration s' !! "cfg/cloud-config"
  = Some (CloudProviderCloudConfig (Cluster_ s))
  /\ (forall sal,
        StaticAuditLog_ (Features_ (Cluster_ s)) = Some sal ->
        StaticAuditLog.Enable sal = true ->
        exists c,
          ReadFile W (StaticAuditLog.PolicyFilePath (StaticAuditLog.Config_ sal))
            (ManifestFilePath s) = Ok c
          /\ Configuration s' !! "cfg/audit-policy.yaml" = Some c)
  /\ (forall pns,
        PodNodeSelector_ (Features_ (Cluster_ s)) = Some pns ->
        PodNodeSelector.Enable pns = true ->
        exists a c,
          NewAdmissionConfig W (VersionsKubernetes (Cluster_ s)) pns = Ok a
          /\ ReadFile W
               (PodNodeSelector.ConfigFilePath (PodNodeSelector.Config_ pns))
               (ManifestFilePath s) = Ok c
          /\ Configuration s' !! "cfg/admission-config.yaml" = Some a
          /\ Configuration s' !! "cfg/podnodeselector.yaml" = Some c).
Proof.
  intros Hrun Hname.
  set (name := GetEncryptionProviderConfigName W (Cluster_ s) (LiveCluster s))
    in *.
  assert (Hn : forall x,
             x ∈ ["cloud-config"; "audit-policy.yaml";
                  "admission-config.yaml"; "podnodeselector.yaml"] ->
             "cfg/" +:+ name <> "cfg/" +:+ x).
  { intros x Hx E. apply cfg_path_inj in E. congruence. }
  pose proof (Hn "cloud-config" ltac:(repeat constructor)) as Hn0.
  pose proof (Hn "audit-policy.yaml" ltac:(repeat constructor)) as Hn1.
  pose proof (Hn "admission-config.yaml" ltac:(repeat constructor)) as Hn2.
  pose proof (Hn "podnodeselector.yaml" ltac:(repeat constructor)) as Hn3.
  clear Hn Hname.
  unfold generateConfigurationFiles, addAuditPolicy, addAdmissionConfig,
    addEncryptionProviders, AddFilePath, AddFile in Hrun.
  cbn in Hrun. fold name in Hrun.
  split_hyp Hrun; inversion Hrun; subst s'; clear Hrun; cbn;
    (split; [bundle_lookup; reflexivity|]);
    (split; [intros sal0 Hsal Hen | intros pns0 Hpns Hen]);
    try discriminate; simplify_eq; try congruence;
    repeat eexists; try eassumption; bundle_lookup; reflexivity.
Qed.

Lemma generateConfigurationFiles_contents_witness :
  Configuration
    (generateConfigurationFiles Demo.world
       (Demo.state Demo.allFeatures Demo.live 1)).1
  !! "cfg/audit-policy.yaml" = Some "policy.yaml"
  /\ Configuration
       (generateConfigurationFiles Demo.world
          (Demo.state Demo.allFeatures Demo.live 1)).1
     !! "cfg/podnodeselector.yaml" = Some "selector.yaml".
Proof.
  destruct (generateConfigurationFiles_contents Demo.world
              (Demo.state Demo.allFeatures Demo.live 1)
              (generateConfigurationFiles Demo.world
                 (Demo.state Demo.allFeatures Demo.live 1)).1
              eq_refl) as (_ & Ha & Hp).
  - rewrite !elem_of_cons, elem_of_nil. cbn. intuition discriminate.
  - destruct (Ha _ eq_refl eq_refl) as (c & Hc & Hl).
    destruct (Hp _ eq_refl eq_refl) as (a & c' & _ & Hc' & _ & Hl').
    cbn in Hc, Hc'. inversion Hc. inversion Hc'. subst. split; assumption.
Defined.

(** ** What the prerequisite installation leaves alone *)

Section Runner.

Variable R : State -> State -> Prop.
Hypothesis R_refl : forall s, R s s.
Hypothesis R_trans : forall a b c, R a b -> R b c -> R a c.
Hypothesis R_bind : forall s r c, R s (setRunner r (setOpenConns c s)).

Lemma runConcurrent_related (task : NodeTask) (all : list HostConfig) :
  (forall s node,
     In node all -> Conn (Runner_ s) = ID node ->
     R s (task s node (ID node)).1) ->
  forall hosts s, incl hosts all -> R s (runConcurrent task hosts s).1.
Proof.
  intros Htask. induction hosts as [|node rest IH]; intros s Hincl; cbn.
  - apply R_refl.
  - unfold runOnNode.
    match goal with
    | |- context [task ?s1 node (ID node)] =>
        pose proof (Htask s1 node (Hincl node (or_introl eq_refl)) eq_refl)
          as H1;
        pose proof (R_bind s {| Conn := ID node |}
                      (OpenConns s ∪ {[ID node]})) as H0;
        destruct (task s1 node (ID node)) as [s2 r]
    end.
    assert (Hrest : incl rest all).
    { intros x Hx. apply Hincl. now right. }
    pose proof (IH s2 Hrest) as H2.
    destruct (runConcurrent task rest s2) as [s3 failed]. cbn in *.
    eapply R_trans; [exact H0|]. eapply R_trans; [exact H1|exact H2].
Qed.

Lemma RunTaskOnAllNodes_parallel_related (task : NodeTask) (s : State) :
  (forall s' node,
     In node (Hosts (Cluster_ s)) -> Conn (Runner_ s') = ID node ->
     R s' (task s' node (ID node)).1) ->
  R s (RunTaskOnAllNodes task RunParallel s).1.
Proof.
  intros Htask. unfold RunTaskOnAllNodes.
  pose proof (runConcurrent_related task (Hosts (Cluster_ s)) Htask
                (Hosts (Cluster_ s)) s (fun x Hx => Hx)) as H.
  now destruct (runConcurrent task (Hosts (Cluster_ s)) s).
Qed.

End Runner.

Lemma sameContext_refl (s : State) : sameContext s s.
Proof. repeat split. Qed.

Lemma sameContext_trans (a b c : State) :
  sameContext a b -> sameContext b c -> sameContext a c.
Proof.
  unfold sameContext. intros (A1 & A2 & A3 & A4 & A5) (B1 & B2 & B3 & B4 & B5).
  repeat split; congruence.
Qed.

Ltac split_goal :=
  cbn;
  repeat match goal with
         | |- context [match ?x with _ => _ end] =>
             lazymatch x with
             | context [match _ with _ => _ end] => fail
             | _ => destruct x; cbn
             end
         end.

Lemma installPrerequisitesOnNode_sameContext (W : World) (s : State)
    (node : HostConfig) (conn : Z) :
  sameContext s (installPrerequisitesOnNode W s node conn).1.
Proof.
  unfold installPrerequisitesOnNode, setupProxy, createEnvironmentFile,
    containerRuntimeEnvironment, installKubeadm, runOnOS, RunRaw.
  destruct (OperatingSystem node); cbn;
    unfold installKubeadmAmazonLinux, installKubeadmCentOS,
      installKubeadmDebian, installKubeadmFlatcar, RunRaw;
    split_goal; repeat split.
Qed.

Lemma prePullImages_sameContext (W : World) (s : State) (node : HostConfig)
    (conn : Z) :
  sameContext s (prePullImages W s node conn).1.
Proof. unfold prePullImages, Run. repeat split. Qed.

(** X5. The prerequisite installation writes nothing into the run context:
    whatever happens on the hosts, [installPrerequisites] leaves the
    bundle, the cluster specification, the live cluster, the force flag
    and the manifest path as they were. *)
Theorem installPrerequisites_sameContext (W : World) (s : State) :
  sameContext s (installPrerequisites W s).1.
Proof.
  unfold installPrerequisites.
  pose proof (RunTaskOnAllNodes_parallel_related sameContext
                sameContext_refl sameContext_trans
                (fun s r c => sameContext_refl s)
                (installPrerequisitesOnNode W)
                (Logger.Infoln "Installing prerequisites..." s)
                (fun s' node _ _ =>
                   installPrerequisitesOnNode_sameContext W s' node (ID node)))
    as H1.
  destruct (RunTaskOnAllNodes (installPrerequisitesOnNode W) RunParallel
              (Logger.Infoln "Installing prerequisites..." s)) as [s1 r1].
  cbn in H1. cbv beta iota.
  destruct r1 as [err|]; cbn [fst snd].
  - eapply sameContext_trans; [|exact H1]. repeat split.
  - pose proof (RunTaskOnAllNodes_parallel_related sameContext
                  sameContext_refl sameContext_trans
                  (fun s r c => sameContext_refl s)
                  (prePullImages W) s1
                  (fun s' node _ _ =>
                     prePullImages_sameContext W s' node (ID node))) as H2.
    eapply sameContext_trans; [|exact H2].
    eapply sameContext_trans; [|exact H1]. repeat split.
Qed.

(** ** Where the commands of the prerequisite installation go *)

Lemma installPrerequisitesOnNode_fleet (W : World) (ids : list Z) (s : State)
    (node : HostConfig) (conn : Z) :
  In (Conn (Runner_ s)) ids ->
  grows (fleetEvent ids) s (installPrerequisitesOnNode W s node conn).1.
Proof.
  intros Hin.
  unfold installPrerequisitesOnNode, setupProxy, createEnvironmentFile,
    containerRuntimeEnvironment, installKubeadm, runOnOS, RunRaw.
  destruct (OperatingSystem node); cbn;
    unfold installKubeadmAmazonLinux, installKubeadmCentOS,
      installKubeadmDebian, installKubeadmFlatcar, RunRaw;
    split_goal;
    repeat (apply grows_emit; [|cbn; auto]); apply grows_refl.
Qed.

Lemma prePullImages_fleet (W : World) (ids : list Z) (s : State)
    (node : HostConfig) (conn : Z) :
  In (Conn (Runner_ s)) ids ->
  grows (fleetEvent ids) s (prePullImages W s node conn).1.
Proof.
  intros Hin. unfold prePullImages, Run. cbn.
  repeat (apply grows_emit; [|cbn; auto]); apply grows_refl.
Qed.

(** X6. The prerequisite installation talks to the fleet only: every event
    [installPrerequisites] adds to the trace is a log line or a command
    sent to a host of the registry; it never sleeps and never closes a
    connection. *)
Theorem installPrerequisites_fleet_only (W : World) (s : State) :
  grows (fleetEvent (map ID (Hosts (Cluster_ s)))) s
    (installPrerequisites W s).1.
Proof.
  set (ids := map ID (Hosts (Cluster_ s))).
  assert (Hbind : forall s0 r c,
             grows (fleetEvent ids) s0 (setRunner r (setOpenConns c s0))).
  { intros s0 r c. exists []. split; [cbn; now rewrite app_nil_r|constructor]. }
  unfold installPrerequisites.
  pose proof (RunTaskOnAllNodes_parallel_related (grows (fleetEvent ids))
                (grows_refl _) (grows_trans _) Hbind
                (installPrerequisitesOnNode W)
                (Logger.Infoln "Installing prerequisites..." s)) as H1.
  pose proof (RunTaskOnAllNodes_parallel_related sameContext
                sameContext_refl sameContext_trans
                (fun s r c => sameContext_refl s)
                (installPrerequisitesOnNode W)
                (Logger.Infoln "Installing prerequisites..." s)
                (fun s' node _ _ =>
                   installPrerequisitesOnNode_sameContext W s' node (ID node)))
    as (Hk & _).
  destruct (RunTaskOnAllNodes (installPrerequisitesOnNode W) RunParallel
              (Logger.Infoln "Installing prerequisites..." s)) as [s1 r1].
  cbn in H1, Hk. cbv beta iota.
  assert (G1 : grows (fleetEvent ids) s s1).
  { eapply grows_trans;
      [exact (grows_emit _ s s (EvLog None "Installing prerequisites...")
                (grows_refl _ s) I)|].
    apply H1. intros s' node Hin Hc. apply installPrerequisitesOnNode_fleet.
    rewrite Hc. now apply in_map. }
  destruct r1 as [err|]; cbn [fst snd]; [exact G1|].
  eapply grows_trans; [exact G1|].
  apply (RunTaskOnAllNodes_parallel_related (grows (fleetEvent ids))
           (grows_refl _) (grows_trans _) Hbind).
  intros s' node Hin Hc. apply prePullImages_fleet.
  rewrite Hc. rewrite Hk in Hin. now apply in_map.
Qed.

(** ** The image pre-pull *)

Lemma runConcurrent_prePull (W : World) (hosts : list HostConfig) (s : State) :
  Cluster_ (runConcurrent (prePullImages W) hosts s).1 = Cluster_ s
  /\ Trace (runConcurrent (prePullImages W) hosts s).1
     = (Trace s
        ++ flat_map (prePullRound (VersionsKubernetes (Cluster_ s))) hosts)%list.
Proof.
  revert s. induction hosts as [|node rest IH]; intros s.
  - cbn. now rewrite app_nil_r.
  - cbn [runConcurrent flat_map]. unfold runOnNode.
    match goal with
    | |- context [prePullImages W ?s0 node (ID node)] =>
        destruct (prePullImages W s0 node (ID node)) as [s1 r] eqn:E
    end.
    unfold prePullImages, Run in E. cbn in E. inversion E; subst s1 r; clear E.
    match goal with
    | |- context [runConcurrent (prePullImages W) rest ?s1] =>
        destruct (IH s1) as [Hk Ht];
        destruct (runConcurrent (prePullImages W) rest s1) as [s2 failed]
    end.
    cbn in *. split; [exact Hk|]. rewrite Ht. now rewrite <- !app_assoc.
Qed.

(** X7. Once the per-node task has succeeded on every host, the pre-pull
    is issued to each host of the registry exactly once, on the host's own
    connection and with the Kubernetes version of the cluster, whether or
    not the pre-pull of another host fails. *)
Theorem installPrerequisites_prePull_each_host (W : World) (s s1 : State) :
  RunTaskOnAllNodes (installPrerequisitesOnNode W) RunParallel
    (Logger.Infoln "Installing prerequisites..." s) = (s1, None) ->
  Trace (installPrerequisites W s).1
  = (Trace s1
     ++ flat_map (prePullRound (VersionsKubernetes (Cluster_ s)))
          (Hosts (Cluster_ s)))%list.
Proof.
  intros H1.
  pose proof (RunTaskOnAllNodes_parallel_related sameContext
                sameContext_refl sameContext_trans
                (fun s r c => sameContext_refl s)
                (installPrerequisitesOnNode W)
                (Logger.Infoln "Installing prerequisites..." s)
                (fun s' node _ _ =>
                   installPrerequisitesOnNode_sameContext W s' node (ID node)))
    as (Hk & _).
  unfold installPrerequisites. rewrite H1 in Hk |- *. cbn in Hk.
  unfold RunTaskOnAllNodes.
  destruct (runConcurrent_prePull W (Hosts (Cluster_ s1)) s1) as [_ Ht].
  destruct (runConcurrent (prePullImages W) (Hosts (Cluster_ s1)) s1)
    as [s2 failed].
  cbn in *. now rewrite Ht, Hk.
Qed.

Lemma installPrerequisites_prePull_each_host_witness :
  Trace (installPrerequisites Demo.world (Demo.fresh 1)).1
  = (Trace (RunTaskOnAllNodes (installPrerequisitesOnNode Demo.world)
              RunParallel
              (Logger.Infoln "Installing prerequisites..." (Demo.fresh 1))).1
     ++ [ EvLog None "Pre-pull images";
          EvRun 1 prePullTemplate [("KUBERNETES_VERSION", "1.24.3")];
          EvLog None "Pre-pull images";
          EvRun 2 prePullTemplate [("KUBERNETES_VERSION", "1.24.3")];
          EvLog None "Pre-pull images";
          EvRun 3 prePullTemplate [("KUBERNETES_VERSION", "1.24.3")] ])%list.
Proof.
  apply (installPrerequisites_prePull_each_host Demo.world (Demo.fresh 1)).
  vm_compute. reflexivity.
Defined.

(** ** One node of the prerequisite installation *)




(** ** Upload of the bundle to a node *)

(** X9. When [uploadConfigurationFilesToNode] succeeds, the bundle was
    uploaded first and then the four install scripts were sent to the node
    in the order cloud config, audit policy, pod-node-selector, encryption
    providers, each rendered for the working directory: all four, whatever
    features are enabled. *)
Theorem uploadConfigurationFilesToNode_success (W : World) (U : Uploader)
    (s s' : State) (node : HostConfig) (conn : Z) :
  uploadConfigurationFilesToNode W U s node conn = (s', None) ->
  exists (s1 : State) (c1 c2 c3 c4 : string),
    UploadTo U conn (WorkDir U) (Logger.Infoln "Uploading config files..." s)
    = (s1, None)
    /\ SaveCloudConfig U (WorkDir U) = Ok c1
    /\ SaveAuditPolicyConfig U (WorkDir U) = Ok c2
    /\ SavePodNodeSelectorConfig U (WorkDir U) = Ok c3
    /\ SaveEncryptionProvidersConfig U (WorkDir U)
         (GetEncryptionProviderConfigName W (Cluster_ s1) (LiveCluster s1))
       = Ok c4
    /\ Trace s'
       = (Trace s1
          ++ [ EvRunRaw (Conn (Runner_ s1)) c1;
               EvRunRaw (Conn (Runner_ s1)) c2;
               EvRunRaw (Conn (Runner_ s1)) c3;
               EvRunRaw (Conn (Runner_ s1)) c4 ])%list.
Proof.
  intros Hrun.
  unfold uploadConfigurationFilesToNode, RunRaw in Hrun.
  destruct (UploadTo U conn (WorkDir U)
              (Logger.Infoln "Uploading config files..." s))
    as [s1 [e|]]; [discriminate|].
  cbn in Hrun. split_hyp Hrun. inversion Hrun; subst s'; clear Hrun.
  exists s1. do 4 eexists. repeat split; try reflexivity; try eassumption.
  cbn. now rewrite <- !app_assoc.
Qed.

Lemma uploadConfigurationFilesToNode_success_witness :
  Trace (uploadConfigurationFilesToNode Demo.world Demo2.uploader
           (Demo.fresh 1) Demo.debian1 1).1
  = [ EvLog None "Uploading config files...";
      EvRunRaw 1 "install cloud-config from ./kubeone";
      EvRunRaw 1 "install audit policy from ./kubeone";
      EvRunRaw 1 "install podnodeselector from ./kubeone";
      EvRunRaw 1 "install encryption-providers.yaml from ./kubeone" ].
Proof.
  destruct (uploadConfigurationFilesToNode_success Demo.world Demo2.uploader
              (Demo.fresh 1)
              (uploadConfigurationFilesToNode Demo.world Demo2.uploader
                 (Demo.fresh 1) Demo.debian1 1).1
              Demo.debian1 1)
    as (s1 & c1 & c2 & c3 & c4 & Hu & H1 & H2 & H3 & H4 & Ht).
  - vm_compute. reflexivity.
  - cbn in Hu. inversion Hu. subst s1.
    cbn in H1, H2, H3, H4. inversion H1. inversion H2. inversion H3.
    inversion H4. subst. exact Ht.
Defined.

(** ** Running the generation again *)

Lemma applyOps_snoc (ops : list (string * string)) (k v : string)
    (m : gmap string string) :
  applyOps (ops ++ [(k, v)]) m = <[k := v]> (applyOps ops m).
Proof. unfold applyOps. now rewrite foldl_app. Qed.

Lemma applyOps_app (a b : list (string * string)) (m : gmap string string) :
  applyOps (a ++ b) m = applyOps b (applyOps a m).
Proof. unfold applyOps. apply foldl_app. Qed.

Lemma applyOps_absorb (ops : list (string * string)) (k v : string)
    (m : gmap string string) :
  <[k := v]> (applyOps ops (<[k := v]> m)) = <[k := v]> (applyOps ops m).
Proof.
  induction ops as [|[k' v'] ops IH] using rev_ind; cbn.
  - apply insert_insert_eq.
  - rewrite !applyOps_snoc.
    destruct (decide (k = k')) as [<-|Hne].
    + rewrite !insert_insert_eq. exact IH.
    + rewrite (insert_insert_ne _ k k') by exact Hne.
      rewrite (insert_insert_ne _ k k') by exact Hne.
      now rewrite IH.
Qed.

Lemma applyOps_idempotent (ops : list (string * string))
    (m : gmap string string) :
  applyOps ops (applyOps ops m) = applyOps ops m.
Proof.
  induction ops as [|[k v] ops IH] using rev_ind; [reflexivity|].
  rewrite !applyOps_snoc, applyOps_absorb. now rewrite IH.
Qed.

Lemma onlyBundle_fields (s s' : State) :
  onlyBundle s s' ->
  Cluster_ s' = Cluster_ s /\ LiveCluster s' = LiveCluster s
  /\ ManifestFilePath s' = ManifestFilePath s
  /\ setConfiguration (Configuration s') s' = s'.
Proof. unfold onlyBundle. intros ->. repeat split. Qed.

Lemma onlyBundle_setConfiguration (s s' : State) (c : gmap string string) :
  onlyBundle s s' -> onlyBundle s (setConfiguration c s').
Proof. unfold onlyBundle. intros ->. reflexivity. Qed.

Lemma insertsOnly_seq (B1 B2 : Task) (s : State) :
  insertsOnly B1 s -> insertsOnly B2 s ->
  insertsOnly (fun s0 => match B1 s0 with
                         | (s1, Some err) => (s1, Some err)
                         | (s1, None) => B2 s1
                         end) s.
Proof.
  intros (ops1 & r1 & H1) (ops2 & r2 & H2).
  destruct r1 as [e|].
  - exists ops1, (Some e). intros s' Hs. now rewrite (H1 s' Hs).
  - exists (ops1 ++ ops2)%list, r2. intros s' Hs. rewrite (H1 s' Hs).
    rewrite H2 by now apply onlyBundle_setConfiguration.
    cbn. now rewrite applyOps_app.
Qed.

Lemma addAuditPolicy_insertsOnly (W : World) (s : State) :
  insertsOnly (addAuditPolicy W) s.
Proof.
  unfold insertsOnly, addAuditPolicy, AddFilePath, AddFile.
  destruct (StaticAuditLog_ (Features_ (Cluster_ s))) as [sal|] eqn:Ef;
    [destruct (StaticAuditLog.Enable sal) eqn:Een;
     [destruct (ReadFile W
                  (StaticAuditLog.PolicyFilePath (StaticAuditLog.Config_ sal))
                  (ManifestFilePath s)) as [c|e] eqn:Er|]|];
    [exists [("cfg/audit-policy.yaml", c)], None
    |exists [], (Some (ErrWrap e "unable to add policy file"))
    |exists [], None
    |exists [], None];
    intros s' Hs; destruct (onlyBundle_fields _ _ Hs) as (Hk & _ & Hm & Hid);
    rewrite Hk, Ef, ?Een, ?Hm, ?Er; cbn; now rewrite ?Hid.
Qed.

Lemma addAdmissionConfig_insertsOnly (W : World) (s : State) :
  insertsOnly (addAdmissionConfig W) s.
Proof.
  unfold insertsOnly, addAdmissionConfig, AddFilePath, AddFile.
  destruct (PodNodeSelector_ (Features_ (Cluster_ s))) as [pns|] eqn:Ef;
    [destruct (PodNodeSelector.Enable pns) eqn:Een;
     [destruct (NewAdmissionConfig W (VersionsKubernetes (Cluster_ s)) pns)
        as [a|e] eqn:Ea;
      [destruct (ReadFile W
                   (PodNodeSelector.ConfigFilePath (PodNodeSelector.Config_ pns))
                   (ManifestFilePath s)) as [c|e] eqn:Er|]|]|];
    [exists [("cfg/admission-config.yaml", a); ("cfg/podnodeselector.yaml", c)],
       None
    |exists [("cfg/admission-config.yaml", a)],
       (Some (ErrWrap e "failed to add podnodeselector config file"))
    |exists [],
       (Some (ErrWrap e "failed to generate admissionconfiguration manifest"))
    |exists [], None
    |exists [], None];
    intros s' Hs; destruct (onlyBundle_fields _ _ Hs) as (Hk & _ & Hm & Hid);
    rewrite Hk, Ef, ?Een, ?Ea; cbn; rewrite ?Hm, ?Er; cbn; now rewrite ?Hid.
Qed.

Lemma addEncryptionProviders_insertsOnly (W : World) (s : State) :
  ShouldEnableEncryption W (Cluster_ s) (LiveCluster s) = false ->
  insertsOnly (addEncryptionProviders W) s.
Proof.
  intros Hsh. unfold insertsOnly, addEncryptionProviders, AddFile.
  destruct (EncryptionEnabled W (Cluster_ s) (LiveCluster s)) eqn:Een;
    [destruct (negb (String.eqb
                       (CustomEncryptionConfiguration
                          (EncryptionProviders_ (Features_ (Cluster_ s))))
                       "")) eqn:Ecu|];
    [exists [("cfg/" +:+ GetEncryptionProviderConfigName W (Cluster_ s)
                          (LiveCluster s),
              CustomEncryptionConfiguration
                (EncryptionProviders_ (Features_ (Cluster_ s))))], None
    |exists [], None
    |exists [], None];
    intros s' Hs; destruct (onlyBundle_fields _ _ Hs) as (Hk & Hl & _ & Hid);
    rewrite Hk, Hl, Hsh, Een, ?Ecu; cbn; now rewrite ?Hid.
Qed.

Lemma generateConfigurationFiles_insertsOnly (W : World) (s : State) :
  ShouldEnableEncryption W (Cluster_ s) (LiveCluster s) = false ->
  insertsOnly (generateConfigurationFiles W) s.
Proof.
  intros Hsh.
  pose proof (insertsOnly_seq _ _ s (addAuditPolicy_insertsOnly W s)
                (insertsOnly_seq _ _ s (addAdmissionConfig_insertsOnly W s)
                   (addEncryptionProviders_insertsOnly W s Hsh)))
    as (ops & r & H).
  exists (("cfg/cloud-config", CloudProviderCloudConfig (Cluster_ s)) :: ops), r.
  intros s' Hs. unfold generateConfigurationFiles.
  destruct (onlyBundle_fields _ _ Hs) as (Hk & _).
  rewrite Hk. unfold AddFile at 1.
  specialize (H (setConfiguration
                   (<["cfg/cloud-config" :=
                        CloudProviderCloudConfig (Cluster_ s)]>
                      (Configuration s')) s')
                (onlyBundle_setConfiguration _ _ _ Hs)).
  cbv beta in H. rewrite H. reflexivity.
Qed.

(** X10. As long as no fresh encryption configuration is to be
    synthesized, generation is idempotent: run again on the state it left,
    [generateConfigurationFiles] returns the same result and the same
    bundle, whether the first run failed or not, since every entry is
    written again under its own path with the same content. *)
Theorem generateConfigurationFiles_idempotent (W : World) (s : State) :
  ShouldEnableEncryption W (Cluster_ s) (LiveCluster s) = false ->
  generateConfigurationFiles W (generateConfigurationFiles W s).1
  = generateConfigurationFiles W s.
Proof.
  intros Hsh.
  destruct (generateConfigurationFiles_insertsOnly W s Hsh) as (ops & r & H).
  rewrite (H s (onlyBundle_refl s)). cbn.
  rewrite H by apply onlyBundle_setConfiguration, onlyBundle_refl.
  cbn. now rewrite applyOps_idempotent.
Qed.

Lemma generateConfigurationFiles_idempotent_witness :
  generateConfigurationFiles Demo.world
    (generateConfigurationFiles Demo.world
       (Demo.state Demo.allFeatures Demo.live 1)).1
  = generateConfigurationFiles Demo.world
      (Demo.state Demo.allFeatures Demo.live 1).
Proof.
  exact (generateConfigurationFiles_idempotent Demo.world
           (Demo.state Demo.allFeatures Demo.live 1) eq_refl).
Defined.

(** ** What the reboot handling leaves alone *)

Lemma disableNMCloudSetupLoop_context (W : World) (node : HostConfig)
    (allHosts : list Host) (s : State) :
  sameContext s (disableNMCloudSetupLoop W node allHosts s).1
  /\ Runner_ (disableNMCloudSetupLoop W node allHosts s).1 = Runner_ s
  /\ OpenConns (disableNMCloudSetupLoop W node allHosts s).1 ⊆ OpenConns s.
Proof.
  revert s. induction allHosts as [|host rest IH]; intros s; cbn.
  - split; [apply sameContext_refl|]. split; [reflexivity|]. intros x Hx. exact Hx.
  - destruct ((ID node =? ID (Config host)) && negb (Initialized host));
      [|apply IH].
    destruct (DisableNMCloudSetup W) as [cmd|e]; cbn.
    + match goal with
      | |- context [disableNMCloudSetupLoop W node rest ?s1] =>
          destruct (IH s1) as (Hc & Hr & Ho)
      end.
      split; [exact Hc|]. split; [exact Hr|].
      intros x Hx. apply Ho in Hx. cbn in Hx.
      apply elem_of_difference in Hx. tauto.
    + split; [apply sameContext_refl|]. split; [reflexivity|].
      intros x Hx. exact Hx.
Qed.

(** X11. The reboot handling works on the connection only: whatever the
    node and the outcome, [disableNMCloudSetup] leaves the bundle, the
    cluster specification, the live cluster and the runner as they were,
    and opens no connection: the cache can only lose entries. *)
Theorem disableNMCloudSetup_context (W : World) (s : State)
    (node : HostConfig) (conn : Z) :
  sameContext s (disableNMCloudSetup W s node conn).1
  /\ Runner_ (disableNMCloudSetup W s node conn).1 = Runner_ s
  /\ OpenConns (disableNMCloudSetup W s node conn).1 ⊆ OpenConns s.
Proof.
  unfold disableNMCloudSetup.
  destruct (negb (bool_decide _)).
  - split; [apply sameContext_refl|]. split; [reflexivity|].
    intros x Hx. exact Hx.
  - apply disableNMCloudSetupLoop_context.
Qed.
